(** * Bucks2Bar: validation, chart rendering and export of [script.js]

    A shallow embedding of the three operations of [script.js]
    ([validateAndCollectData], [renderChart] and the handlers installed by
    [window.onload]) over an explicit model of what they touch: the input
    elements of the document with their class lists, the global
    [chartInstance], the chart objects built by the charting library, the
    messages shown with [alert] and the downloads started. *)

From Stdlib Require Import ZArith NArith List String Ascii Bool Lia.
From Stdlib Require Import Floats.SpecFloat DecimalString.
From stdpp Require Import base decidable option list.

Local Open Scope Z_scope.

(** ** JavaScript strings

    A string is its sequence of UTF-16 code units. *)

Definition jsstring := list N.

(** The code units of an ASCII literal of the source. *)
Definition js (s : string) : jsstring := map N_of_ascii (list_ascii_of_string s).

(** WhiteSpace and LineTerminator code points: what [String.prototype.trim]
    strips and what the numeric string grammar calls StrWhiteSpaceChar. *)
Definition isWhiteSpace (c : N) : bool :=
  existsb (N.eqb c)
    [ 9; 10; 11; 12; 13; 32; 160; 5760;
      8192; 8193; 8194; 8195; 8196; 8197; 8198; 8199; 8200; 8201; 8202;
      8232; 8233; 8239; 8287; 12288; 65279 ]%N.

Fixpoint trimStart (s : jsstring) : jsstring :=
  match s with
  | c :: s' => if isWhiteSpace c then trimStart s' else s
  | [] => []
  end.

Definition trimEnd (s : jsstring) : jsstring := rev (trimStart (rev s)).

(** [s.trim()] *)
Definition trim (s : jsstring) : jsstring := trimEnd (trimStart s).

(** ** JavaScript numbers

    A Number is an IEEE 754 binary64 value: 53 bits of precision, infinities
    at exponent 1024. NaN carries no payload. *)

Definition number := spec_float.

Definition prec : Z := 53.
Definition emax : Z := 1024.

(** The literal [0] of the source. *)
Definition zero : number := S754_zero false.

Definition NaN : number := S754_nan.
Definition Infinity : number := S754_infinity false.

Definition number_isNaN (x : number) : bool :=
  match x with S754_nan => true | _ => false end.

(** [x < y] on Numbers: false as soon as one side is NaN, and -0 is not
    below +0. *)
Definition lessThan (x y : number) : bool := SFltb x y.

(** The Number nearest to [n / d] ([n], [d] positive), ties to even, with
    the sign [neg]; overflows to an infinity, underflows to a zero. *)
Definition roundRatio (neg : bool) (n d : Z) : number :=
  let '(q, e, l) := SFdiv_core_binary prec emax n 0 d 0 in
  binary_round_aux prec emax neg q e l.

(** The Number for the mathematical value [m * 10 ^ e] ([m >= 0]). *)
Definition roundMV (neg : bool) (m e : Z) : number :=
  if m =? 0 then S754_zero neg
  else if 0 <=? e then roundRatio neg (m * 10 ^ e) 1
  else roundRatio neg m (10 ^ (- e)).

(** The Number of an integer of the source or of a test. *)
Definition ofZ (z : Z) : number := roundMV (z <? 0) (Z.abs z) 0.

(** ** The numeric string grammar

    StrDecimalLiteral, as [Number] and [parseFloat] share it. *)

Definition digitOf (radix : Z) (c : N) : option Z :=
  let v :=
    if (48 <=? c)%N && (c <=? 57)%N then Some (Z.of_N c - 48)
    else if (97 <=? c)%N && (c <=? 102)%N then Some (Z.of_N c - 87)
    else if (65 <=? c)%N && (c <=? 70)%N then Some (Z.of_N c - 55)
    else None in
  match v with
  | Some d => if d <? radix then Some d else None
  | None => None
  end.

(** The longest run of digits at the head of [s], and what follows it. *)
Fixpoint takeDigits (radix : Z) (s : jsstring) : list Z * jsstring :=
  match s with
  | c :: s' =>
      match digitOf radix c with
      | Some d => let '(ds, rest) := takeDigits radix s' in (d :: ds, rest)
      | None => ([], s)
      end
  | [] => ([], [])
  end.

Definition digitsValue (radix : Z) (ds : list Z) : Z :=
  fold_left (fun acc d => radix * acc + d) ds 0.

Fixpoint stripPrefix (p s : jsstring) : option jsstring :=
  match p, s with
  | [], _ => Some s
  | a :: p', b :: s' => if (a =? b)%N then stripPrefix p' s' else None
  | _ :: _, [] => None
  end.

Inductive StrUnsignedDecimalLiteral :=
  | LitInfinity
  | LitDecimal (intPart fracPart : list Z) (exponent : Z).

Record StrDecimalLiteral := mkLiteral {
  negative : bool;
  unsignedPart : StrUnsignedDecimalLiteral
}.

(** ExponentPart, when one is there: [e] or [E], an optional sign and at
    least one digit. Otherwise nothing is consumed. *)
Definition scanExponent (s : jsstring) : Z * jsstring :=
  match s with
  | c :: s1 =>
      if (c =? 101)%N || (c =? 69)%N then
        let '(neg, s2) :=
          match s1 with
          | 43%N :: s2 => (false, s2)
          | 45%N :: s2 => (true, s2)
          | _ => (false, s1)
          end in
        match takeDigits 10 s2 with
        | ([], _) => (0, s)
        | (ds, s3) => (if neg then - digitsValue 10 ds else digitsValue 10 ds, s3)
        end
      else (0, s)
  | [] => (0, s)
  end.

(** The longest prefix of [s] that is a StrUnsignedDecimalLiteral. *)
Definition scanUnsigned (s : jsstring) : option (StrUnsignedDecimalLiteral * jsstring) :=
  match stripPrefix (js "Infinity") s with
  | Some rest => Some (LitInfinity, rest)
  | None =>
      let '(ip, s1) := takeDigits 10 s in
      match s1 with
      | 46%N :: s2 =>
          let '(fp, s3) := takeDigits 10 s2 in
          match ip, fp with
          | [], [] => None
          | _, _ => let '(e, s4) := scanExponent s3 in Some (LitDecimal ip fp e, s4)
          end
      | _ =>
          match ip with
          | [] => None
          | _ => let '(e, s4) := scanExponent s1 in Some (LitDecimal ip [] e, s4)
          end
      end
  end.

(** The longest prefix of [s] that is a StrDecimalLiteral. *)
Definition scanStrDecimalLiteral (s : jsstring) : option (StrDecimalLiteral * jsstring) :=
  let '(neg, s1) :=
    match s with
    | 43%N :: s1 => (false, s1)
    | 45%N :: s1 => (true, s1)
    | _ => (false, s)
    end in
  match scanUnsigned s1 with
  | Some (u, rest) => Some (mkLiteral neg u, rest)
  | None => None
  end.

(** StringNumericValue of a StrDecimalLiteral. *)
Definition literalValue (l : StrDecimalLiteral) : number :=
  match unsignedPart l with
  | LitInfinity => S754_infinity (negative l)
  | LitDecimal ip fp e =>
      roundMV (negative l) (digitsValue 10 (ip ++ fp)) (e - Z.of_nat (length fp))
  end.

(** NonDecimalIntegerLiteral: [0b], [0o] or [0x] (either case) and at least
    one digit of that radix, with nothing after them. No sign. *)
Definition scanNonDecimal (s : jsstring) : option Z :=
  match s with
  | 48%N :: c :: ds =>
      let radix :=
        if (c =? 98)%N || (c =? 66)%N then Some 2
        else if (c =? 111)%N || (c =? 79)%N then Some 8
        else if (c =? 120)%N || (c =? 88)%N then Some 16
        else None in
      match radix with
      | Some r =>
          match takeDigits r ds with
          | (d :: ds', []) => Some (digitsValue r (d :: ds'))
          | _ => None
          end
      | None => None
      end
  | _ => None
  end.

(** [Number(s)] for a string: StringToNumber. White space around the
    literal is dropped, the empty string is +0, and anything that is not
    wholly a StrNumericLiteral is NaN. *)
Definition StringToNumber (s : jsstring) : number :=
  match trim s with
  | [] => zero
  | t =>
      match scanStrDecimalLiteral t with
      | Some (l, []) => literalValue l
      | _ =>
          match scanNonDecimal t with
          | Some n => roundMV false n 0
          | None => NaN
          end
      end
  end.

(** The global [isNaN(v)] on a string: the argument goes through ToNumber. *)
Definition isNaN (s : jsstring) : bool := number_isNaN (StringToNumber s).

(** [parseFloat(s)]: leading white space is dropped and the longest prefix
    that is a StrDecimalLiteral is read; NaN when there is none. *)
Definition parseFloat (s : jsstring) : number :=
  match scanStrDecimalLiteral (trimStart s) with
  | Some (l, _) => literalValue l
  | None => NaN
  end.

(** ** The document

    An input element: its class list (a DOMTokenList, the tokens in order)
    and the text of its [value]. An element is known by its position in the
    document, so that the node lists of [querySelectorAll] and the element
    updated through [classList] are the same object. *)

Record Element := mkElement {
  classList : list jsstring;
  value : jsstring
}.

(** What [getContext("2d")] returns: the 2D context of a canvas, known by
    the canvas it draws on, or [null]. *)
Inductive Context2D :=
  | mkContext2D (canvas : nat)
  | nullContext.

(** The page: its input elements in document order, and for the element
    with id [budgetChart] what its [getContext("2d")] returns. [None] is the
    page without such an element, on which
    [document.getElementById("budgetChart").getContext] is a TypeError. *)
Record Document := mkDocument {
  elements : list Element;
  budgetChart : option Context2D
}.

Definition contains (token : jsstring) (e : Element) : bool :=
  bool_decide (token ∈ classList e).

(** [classList.add(token)]: appended unless already there. *)
Definition add (token : jsstring) (e : Element) : Element :=
  mkElement (if contains token e then classList e else classList e ++ [token])
            (value e).

(** [classList.remove(token)] *)
Definition remove (token : jsstring) (e : Element) : Element :=
  mkElement (List.filter (fun t => negb (bool_decide (t = token))) (classList e))
            (value e).

(** [document.querySelectorAll("." + cls)]: the static list of the elements
    of that class, in document order. *)
Definition querySelectorAll (cls : jsstring) (els : list Element) : list nat :=
  List.filter
    (fun i => match els !! i with Some e => contains cls e | None => false end)
    (seq 0 (length els)).

(** ** validateAndCollectData *)

Record ValidationResult := mkResult {
  isValid : bool;
  incomeData : list number;
  expenseData : list number
}.

(** What one [forEach] works on: the elements, the flag [isValid] and the
    array its callback pushes to. *)
Record Collecting := mkCollecting {
  c_elements : list Element;
  c_isValid : bool;
  c_data : list number
}.

(** The callback of the two [forEach] loops, on the input at position [i].
    The source writes it out twice, once pushing to [incomeData] and once to
    [expenseData]; nothing else differs. *)
Definition inputCallback (st : Collecting) (i : nat) : Collecting :=
  match c_elements st !! i with
  | None => st
  | Some input =>
      let value := trim (value input) in
      if bool_decide (value = []) then
        mkCollecting (<[i := remove (js "is-invalid") input]> (c_elements st))
                     (c_isValid st)
                     (c_data st ++ [zero])
      else if isNaN value || lessThan (parseFloat value) zero then
        mkCollecting (<[i := add (js "is-invalid") input]> (c_elements st))
                     false
                     (c_data st ++ [zero])
      else
        mkCollecting (<[i := remove (js "is-invalid") input]> (c_elements st))
                     (c_isValid st)
                     (c_data st ++ [parseFloat value])
  end.

(** [nodes.forEach(callback)] *)
Definition forEach (nodes : list nat) (st : Collecting) : Collecting :=
  fold_left inputCallback nodes st.

Definition validateAndCollectData (d : Document) : ValidationResult * Document :=
  let incomeInputs := querySelectorAll (js "income-input") (elements d) in
  let expenseInputs := querySelectorAll (js "expense-input") (elements d) in
  let income := forEach incomeInputs (mkCollecting (elements d) true []) in
  let expense :=
    forEach expenseInputs (mkCollecting (c_elements income) (c_isValid income) []) in
  (mkResult (c_isValid expense) (c_data income) (c_data expense),
   mkDocument (c_elements expense) (budgetChart d)).

(** ** The chart configuration and the charting library *)

Record Dataset := mkDataset {
  label : jsstring;
  data : list number;
  backgroundColor : jsstring;
  borderColor : jsstring;
  borderWidth : number
}.

(** What the tooltip callback reads of its argument:
    [context.dataset.label] and [context.parsed.y]. *)
Record TooltipContext := mkTooltipContext {
  dataset_label : jsstring;
  parsed_y : number
}.

Record ChartConfig := mkChartConfig {
  type : jsstring;
  labels : list jsstring;
  datasets : list Dataset;
  responsive : bool;
  y_beginAtZero : bool;
  y_ticks_callback : number -> jsstring;
  legend_display : bool;
  legend_position : jsstring;
  tooltip_label : TooltipContext -> jsstring
}.

(** A chart object, as the tests' [MockChart] keeps it: what it was built
    from, and whether [destroy()] was called on it. *)
Record Chart := mkChart {
  ctx : Context2D;
  config : ChartConfig;
  destroyed : bool
}.

Definition destroy (c : Chart) : Chart := mkChart (ctx c) (config c) true.

(** ** The state of the page *)

Record Download := mkDownload {
  href : jsstring;
  download : jsstring
}.

(** [chartInstance] refers to a chart object by its position in
    [instances], the objects in the order [new Chart] built them (the tests'
    [MockChart.instances]). [alerts] and [downloads] log, oldest first, the
    messages shown and the downloads started. *)
Record World := mkWorld {
  document : Document;
  chartInstance : option nat;
  instances : list Chart;
  alerts : list jsstring;
  downloads : list Download
}.

(** How a call ends: it returns, or a TypeError escapes it. *)
Inductive Completion := Returned | Thrown.

Definition monthLabels : list jsstring :=
  [ js "Jan"; js "Feb"; js "Mar"; js "Apr"; js "May"; js "Jun";
    js "Jul"; js "Aug"; js "Sep"; js "Oct"; js "Nov"; js "Dec" ].

(** The user actions the handlers of [window.onload] answer, and a change of
    the page between two of them (the user types, a script edits the
    form). *)
Inductive Event :=
  | UpdateChartClick
  | ChartTabShown
  | DownloadChartClick
  | PageChanged (d : Document).

Section Host.

(** What the host and the charting library decide: how a Number is written
    in the locale of the browser, and the image a chart encodes to. *)
Variable toLocaleString : number -> jsstring.
Variable toBase64Image : Chart -> jsstring.

(** The configuration [renderChart] passes to [new Chart]. *)
Definition chartConfig (incomeData expenseData : list number) : ChartConfig :=
  mkChartConfig
    (js "bar")
    monthLabels
    [ mkDataset (js "Income") incomeData
        (js "rgba(40, 167, 69, 0.7)") (js "rgba(40, 167, 69, 1)") (ofZ 1);
      mkDataset (js "Expenses") expenseData
        (js "rgba(220, 53, 69, 0.7)") (js "rgba(220, 53, 69, 1)") (ofZ 1) ]
    true
    true
    (fun value => js "$" ++ toLocaleString value)
    true
    (js "top")
    (fun context =>
       dataset_label context ++ js ": $" ++ toLocaleString (parsed_y context)).

Definition renderChart (w : World) : World * Completion :=
  let '(r, d) := validateAndCollectData (document w) in
  if negb (isValid r) then
    (mkWorld d (chartInstance w) (instances w)
       (alerts w ++ [js "Please fix the validation errors before updating the chart."])
       (downloads w),
     Returned)
  else
    match budgetChart d with
    | None =>
        (mkWorld d (chartInstance w) (instances w) (alerts w) (downloads w), Thrown)
    | Some ctx =>
        let existing :=
          match chartInstance w with
          | Some i => alter destroy i (instances w)
          | None => instances w
          end in
        (mkWorld d
           (Some (length existing))
           (existing ++ [mkChart ctx (chartConfig (incomeData r) (expenseData r)) false])
           (alerts w) (downloads w),
         Returned)
    end.

(** The click handler of [downloadChartBtn]. *)
Definition downloadChart (w : World) : World * Completion :=
  match chartInstance w with
  | None =>
      (mkWorld (document w) (chartInstance w) (instances w)
         (alerts w ++ [js "Please update the chart first before downloading."])
         (downloads w),
       Returned)
  | Some i =>
      match instances w !! i with
      | Some chart =>
          let imageData := toBase64Image chart in
          (mkWorld (document w) (chartInstance w) (instances w) (alerts w)
             (downloads w ++ [mkDownload imageData (js "budget-chart.png")]),
           Returned)
      | None => (w, Thrown)
      end
  end.

(** One turn of the event loop, with the handlers of [window.onload] in
    place. An error that escapes a handler ends the turn; the page lives
    on. *)
Definition handle (w : World) (ev : Event) : World :=
  match ev with
  | UpdateChartClick => fst (renderChart w)
  | ChartTabShown => fst (renderChart w)
  | DownloadChartClick => fst (downloadChart w)
  | PageChanged d =>
      mkWorld d (chartInstance w) (instances w) (alerts w) (downloads w)
  end.

Definition run (w : World) (evs : list Event) : World := fold_left handle evs w.

End Host.

(** The page as the script finds it: [chartInstance] is [null], no chart was
    built, nothing was shown or downloaded. *)
Definition initial (d : Document) : World := mkWorld d None [] [] [].

(** The charts [destroy()] was not called on. *)
Definition live (w : World) : list Chart :=
  List.filter (fun c => negb (destroyed c)) (instances w).

(** ** The fixtures of the test suite *)

(** [createBudgetDOM()]: for each month an income input and an expense
    input, both empty, and the canvas. *)
Definition createBudgetDOM : Document :=
  mkDocument
    (concat (replicate 12
       [ mkElement [js "form-control"; js "income-input"] [];
         mkElement [js "form-control"; js "expense-input"] [] ]))
    (Some (mkContext2D 0)).

Definition setValue (v : jsstring) (e : Element) : Element :=
  mkElement (classList e) v.

Fixpoint setValues (nodes : list nat) (values : list jsstring)
    (els : list Element) : list Element :=
  match nodes, values with
  | i :: nodes', v :: values' => setValues nodes' values' (alter (setValue v) i els)
  | _, _ => els
  end.

(** [setInputValues(window, incomeValues, expenseValues)], as far as the
    tests use it: with no more values than inputs (the helper ends in a
    TypeError on a value without an input, here it is dropped) and with
    texts the input keeps. An input of [type="number"], as the form has
    them, keeps a valid floating-point number or the empty text and takes
    any other text as empty; the tests switch an input to [type="text"]
    before they give it such a text. *)
Definition setInputValues (incomeValues expenseValues : list jsstring)
    (d : Document) : Document :=
  let incomeInputs := querySelectorAll (js "income-input") (elements d) in
  let expenseInputs := querySelectorAll (js "expense-input") (elements d) in
  mkDocument
    (setValues expenseInputs expenseValues
       (setValues incomeInputs incomeValues (elements d)))
    (budgetChart d).

(** [MockChart.prototype.toBase64Image] *)
Definition mockToBase64Image (_ : Chart) : jsstring :=
  js "data:image/png;base64,mockImageData".

(** The decimal digits of a natural number. *)
Definition decimal (n : Z) : jsstring :=
  js (DecimalString.NilZero.string_of_uint (N.to_uint (Z.to_N n))).

(** Commas between groups of three, on the digits in reverse. *)
Fixpoint group3 (r : jsstring) : jsstring :=
  match r with
  | a :: b :: c :: (_ :: _) as rest => a :: b :: c :: 44%N :: group3 rest
  | _ => r
  end.

(** A stand-in for [toLocaleString()] with no argument in a browser whose
    locale is en-US: groups of three in the integer part and at most three
    fraction digits. It is the host's rendering on the integers up to
    [2 ^ 53]. On other values it rounds the exact binary value, half away
    from zero, where the host rounds the shortest decimal that reads back
    as the Number. *)
Definition toLocaleString_enUS (x : number) : jsstring :=
  let sign (s : bool) := if s then js "-" else [] in
  match x with
  | S754_nan => js "NaN"
  | S754_infinity s => sign s ++ [8734%N]
  | S754_zero s => sign s ++ js "0"
  | S754_finite s m e =>
      let thousandths :=
        if 0 <=? e then Z.pos m * 2 ^ e * 1000
        else (Z.pos m * 2000 + 2 ^ (- e)) / 2 ^ (1 - e) in
      let f := thousandths mod 1000 in
      let fraction :=
        if f =? 0 then []
        else if f mod 100 =? 0 then js "." ++ decimal (f / 100)
        else if f mod 10 =? 0 then js "." ++ decimal (f / 100) ++ decimal (f / 10 mod 10)
        else js "." ++ decimal (f / 100) ++ decimal (f / 10 mod 10) ++ decimal (f mod 10) in
      sign s ++ rev (group3 (rev (decimal (thousandths / 1000)))) ++ fraction
  end.

(** ** What the callback does to one input

    The three branches of the callback, read off one element: the text it
    tests, whether it takes the invalid branch, the number it pushes and the
    element it leaves. *)

Definition text (e : Element) : jsstring := trim (value e).

Definition rejected (t : jsstring) : bool :=
  negb (bool_decide (t = [])) && (isNaN t || lessThan (parseFloat t) zero).

Definition collected (t : jsstring) : number :=
  if bool_decide (t = []) then zero
  else if isNaN t || lessThan (parseFloat t) zero then zero
  else parseFloat t.

Definition marked (e : Element) : Element :=
  if rejected (text e) then add (js "is-invalid") e else remove (js "is-invalid") e.

(** The trimmed texts of the inputs of a node list, in its order. *)
Definition texts (nodes : list nat) (els : list Element) : list jsstring :=
  omap (fun i => text <$> els !! i) nodes.

(** An input of the form: an element of one of the two classes the script
    selects. *)
Definition isField (e : Element) : bool :=
  contains (js "income-input") e || contains (js "expense-input") e.

Definition incomeTexts (d : Document) : list jsstring :=
  map text (List.filter (contains (js "income-input")) (elements d)).

Definition expenseTexts (d : Document) : list jsstring :=
  map text (List.filter (contains (js "expense-input")) (elements d)).

(** A text parses as a non-negative number when it is not empty, [isNaN]
    accepts it and [parseFloat] of it is not below zero; it fails validation
    when it is not empty and one of the two tests fails. *)
Definition parsesNonNegative (t : jsstring) : Prop :=
  t <> [] /\ isNaN t = false /\ lessThan (parseFloat t) zero = false.

Definition failsValidation (t : jsstring) : Prop :=
  t <> [] /\ (isNaN t = true \/ lessThan (parseFloat t) zero = true).

(** The elements after a [forEach]: each input of the node list is marked
    in place. *)
Definition markAll (nodes : list nat) (els : list Element) : list Element :=
  fold_left (fun l i => alter marked i l) nodes els.

Definition processed (e : Element) : Element :=
  if isField e then marked e else e.

(** The place of the element at position [i] in the node list of its
    class: how many elements of the class come before it. *)
Definition rank (cls : jsstring) (els : list Element) (i : nat) : nat :=
  length (List.filter (contains cls) (take i els)).

(** Two elements that differ at most by the token [is-invalid]. *)
Definition sameButMarker (e1 e2 : Element) : Prop :=
  value e1 = value e2
  /\ forall t, t <> js "is-invalid" -> contains t e1 = contains t e2.

(** ** The chart handle *)

(** The owner discipline of [chartInstance]: it is [null] as long as no
    chart was built, and otherwise it is the chart built last, the only one
    [destroy()] was not called on. *)
Definition singleOwner (w : World) : Prop :=
  match chartInstance w with
  | None => instances w = []
  | Some i =>
      exists old c, instances w = old ++ [c] /\ i = length old
        /\ Forall (fun c' => destroyed c' = true) old /\ destroyed c = false
  end.

Definition validationMessage : jsstring :=
  js "Please fix the validation errors before updating the chart.".

Definition downloadMessage : jsstring :=
  js "Please update the chart first before downloading.".

(** ** The forms of the tests *)

(** "should return valid data for all numeric inputs" *)
Definition validForm : Document :=
  setInputValues
    (map js [ "100"; "200"; "300"; "400"; "500"; "600";
              "700"; "800"; "900"; "1000"; "1100"; "1200" ]%string)
    (map js [ "50"; "100"; "150"; "200"; "250"; "300";
              "350"; "400"; "450"; "500"; "550"; "600" ]%string)
    createBudgetDOM.

(** "should handle mixed valid and invalid inputs correctly" *)
Definition mixedForm : Document :=
  setInputValues
    (map js [ "100"; EmptyString; "-300"; "abc"; "500"; "600";
              "700"; "800"; "900"; "1000"; "1100"; "1200" ]%string)
    (map js [ "50"; "100"; "150"; "200"; EmptyString; "-250";
              "xyz"; "400"; "450"; "500"; "550"; "600" ]%string)
    createBudgetDOM.

(** ** The state the charts live in *)

(** What the render handler reads and writes besides the two logs. *)
Definition chartState (w : World) : Document * option nat * list Chart :=
  (document w, chartInstance w, instances w).

Definition isDownloadChartClick (ev : Event) : bool :=
  match ev with DownloadChartClick => true | _ => false end.

(** Two pages of twenty-four inputs of type text, which keep any text:
    the January inputs hold a hexadecimal and a binary literal, or [0x10]
    and [Infinity]; the other inputs are empty. *)
Definition literalForm : Document :=
  mkDocument
    (mkElement [js "form-control"; js "income-input"] (js "0XfF")
     :: mkElement [js "form-control"; js "expense-input"] (js "0b101")
     :: concat (replicate 11
          [ mkElement [js "form-control"; js "income-input"] [];
            mkElement [js "form-control"; js "expense-input"] [] ]))
    (Some (mkContext2D 0)).

Definition textForm : Document :=
  mkDocument
    (mkElement [js "form-control"; js "income-input"] (js "0x10")
     :: mkElement [js "form-control"; js "expense-input"] (js "Infinity")
     :: concat (replicate 11
          [ mkElement [js "form-control"; js "income-input"] [];
            mkElement [js "form-control"; js "expense-input"] [] ]))
    (Some (mkContext2D 0)).

(** * Properties *)

(** ** Trimming and the two parsers *)

Lemma trimStart_split s :
  exists w, s = w ++ trimStart s /\ forallb isWhiteSpace w = true.
Proof.
  induction s as [|c s (w & Hs & Hw)]; [now exists []|].
  simpl. destruct (isWhiteSpace c) eqn:Hc.
  - exists (c :: w). simpl. rewrite Hc, Hw. split; [now f_equal | reflexivity].
  - now exists [].
Qed.

Lemma trimStart_head s c r : trimStart s = c :: r -> isWhiteSpace c = false.
Proof.
  induction s as [|a s IH]; simpl; [discriminate|].
  destruct (isWhiteSpace a) eqn:Ha; [assumption|]. now intros [= <- _].
Qed.

Lemma trimStart_fixed c r : isWhiteSpace c = false -> trimStart (c :: r) = c :: r.
Proof. intros H. simpl. now rewrite H. Qed.

Lemma trimStart_trimStart s : trimStart (trimStart s) = trimStart s.
Proof.
  destruct (trimStart s) as [|c r] eqn:Hs; [reflexivity|].
  apply trimStart_fixed. eapply trimStart_head. eassumption.
Qed.

(** A trimmed text has no white space left at either end. *)
Lemma trimStart_trim s : trimStart (trim s) = trim s.
Proof.
  unfold trim, trimEnd.
  destruct (trimStart_split (rev (trimStart s))) as (w & Hsplit & _).
  apply (f_equal (@rev N)) in Hsplit. rewrite rev_involutive, rev_app_distr in Hsplit.
  destruct (rev (trimStart (rev (trimStart s)))) as [|c r] eqn:Hr; [reflexivity|].
  apply trimStart_fixed. simpl in Hsplit. eapply trimStart_head. eassumption.
Qed.

Lemma trim_trim s : trim (trim s) = trim s.
Proof.
  unfold trim at 1. rewrite trimStart_trim. unfold trim, trimEnd.
  now rewrite rev_involutive, trimStart_trimStart.
Qed.

(** On a trimmed text that [isNaN] accepts and that is not a binary, octal
    or hexadecimal literal, [parseFloat] returns the Number [isNaN] tested:
    the text is wholly a StrDecimalLiteral. *)
Lemma parseFloat_StringToNumber s :
  trim s <> [] -> isNaN (trim s) = false -> scanNonDecimal (trim s) = None ->
  parseFloat (trim s) = StringToNumber (trim s).
Proof.
  unfold isNaN, parseFloat, StringToNumber.
  rewrite trimStart_trim, trim_trim. intros Hne Hnan Hdec.
  destruct (trim s) as [|c r] eqn:Ht; [contradiction|].
  rewrite Hdec in *.
  destruct (scanStrDecimalLiteral (c :: r)) as [[l [|c' r']]|];
    [reflexivity | discriminate Hnan | discriminate Hnan].
Qed.

(** What the two parsers make of some texts. *)

Example parseFloat_decimal :
  parseFloat (js "0.1") = S754_finite false 7205759403792794 (-56)
  /\ parseFloat (js "1200") = ofZ 1200
  /\ parseFloat (js "-300") = ofZ (-300)
  /\ parseFloat (js ".5e1") = ofZ 5
  /\ parseFloat (js "1e400") = Infinity
  /\ parseFloat (js "-1e-400") = S754_zero true.
Proof. repeat split; vm_compute; reflexivity. Qed.

Example parseFloat_reads_a_prefix :
  parseFloat (js "12abc") = ofZ 12 /\ isNaN (js "12abc") = true
  /\ parseFloat (js "1e+") = ofZ 1 /\ isNaN (js "1e+") = true
  /\ parseFloat (js "abc") = NaN /\ isNaN (js "abc") = true.
Proof. repeat split; vm_compute; reflexivity. Qed.

Example StringToNumber_literals :
  StringToNumber [] = zero
  /\ StringToNumber (js " 42 ") = ofZ 42
  /\ StringToNumber (js "0b101") = ofZ 5
  /\ StringToNumber (js "0o17") = ofZ 15
  /\ StringToNumber (js "0XfF") = ofZ 255
  /\ StringToNumber (js "-0x10") = NaN
  /\ StringToNumber (js "5.") = ofZ 5
  /\ StringToNumber (js ".") = NaN
  /\ StringToNumber (js "-Infinity") = S754_infinity true.
Proof. repeat split; vm_compute; reflexivity. Qed.

Example trim_white_space :
  trim ([9; 32; 160; 8195; 65279] ++ js "7 8" ++ [10; 13; 8232; 12288])%N = js "7 8".
Proof. vm_compute; reflexivity. Qed.

(** ** Class lists *)

Lemma value_add token e : value (add token e) = value e.
Proof. reflexivity. Qed.

Lemma value_remove token e : value (remove token e) = value e.
Proof. reflexivity. Qed.

Lemma value_marked e : value (marked e) = value e.
Proof. unfold marked. destruct (rejected (text e)); reflexivity. Qed.

Lemma text_marked e : text (marked e) = text e.
Proof. unfold text. now rewrite value_marked. Qed.

Lemma contains_add token t e :
  contains t (add token e) = contains t e || bool_decide (t = token).
Proof.
  unfold add, contains at 1 3; simpl.
  apply eq_true_iff_eq. rewrite orb_true_iff, !bool_decide_eq_true.
  unfold contains.
  destruct (bool_decide_reflect (token ∈ classList e)) as [Hin|Hin].
  - split; [intros H; left; exact H | intros [H| ->]; assumption].
  - rewrite elem_of_app, list_elem_of_singleton. reflexivity.
Qed.

Lemma contains_remove token t e :
  contains t (remove token e) = contains t e && negb (bool_decide (t = token)).
Proof.
  unfold contains, remove; simpl.
  apply eq_true_iff_eq.
  rewrite andb_true_iff, negb_true_iff, !bool_decide_eq_true, bool_decide_eq_false.
  rewrite list_elem_of_In, filter_In, <- list_elem_of_In.
  rewrite negb_true_iff, bool_decide_eq_false. reflexivity.
Qed.

Lemma add_add token e : add token (add token e) = add token e.
Proof.
  unfold add at 1. rewrite contains_add, bool_decide_eq_true_2 by reflexivity.
  now rewrite orb_true_r; destruct (add token e).
Qed.

Lemma remove_remove token e : remove token (remove token e) = remove token e.
Proof.
  unfold remove; simpl. f_equal.
  induction (classList e) as [|t l IH]; simpl; [reflexivity|].
  destruct (bool_decide (t = token)) eqn:Ht; simpl; [assumption|].
  rewrite Ht; simpl. now f_equal.
Qed.

Lemma marked_marked e : marked (marked e) = marked e.
Proof.
  unfold marked at 1. rewrite text_marked. unfold marked.
  destruct (rejected (text e)); [apply add_add | apply remove_remove].
Qed.

(** The marker of an input after the callback tells which branch it took. *)
Lemma contains_invalid_marked e :
  contains (js "is-invalid") (marked e) = rejected (text e).
Proof.
  unfold marked. destruct (rejected (text e)).
  - rewrite contains_add, bool_decide_eq_true_2 by reflexivity. apply orb_true_r.
  - rewrite contains_remove, bool_decide_eq_true_2 by reflexivity. apply andb_false_r.
Qed.

(** Marking leaves the classes the script selects on as they were. *)
Lemma contains_marked t e :
  t <> js "is-invalid" -> contains t (marked e) = contains t e.
Proof.
  intros Hne. unfold marked. destruct (rejected (text e)).
  - rewrite contains_add, bool_decide_eq_false_2 by assumption. apply orb_false_r.
  - rewrite contains_remove, bool_decide_eq_false_2 by assumption. apply andb_true_r.
Qed.

Lemma isField_marked e : isField (marked e) = isField e.
Proof. unfold isField. rewrite !contains_marked; [reflexivity | discriminate..]. Qed.

(** ** The two loops *)

Lemma insert_is_alter (f : Element -> Element) (els : list Element) i e :
  els !! i = Some e -> <[i := f e]> els = alter f i els.
Proof.
  intros He. apply list_eq; intros j.
  destruct (decide (i = j)) as [<-|Hne].
  - rewrite list_lookup_alter_eq, He. apply list_lookup_insert_eq.
    apply lookup_lt_is_Some; eauto.
  - now rewrite list_lookup_insert_ne, list_lookup_alter_ne.
Qed.

Lemma alter_absent (f : Element -> Element) (els : list Element) (i : nat) :
  els !! i = None -> alter f i els = els.
Proof.
  intros He. apply list_eq; intros j.
  destruct (decide (i = j)) as [<-|Hne].
  - now rewrite list_lookup_alter_eq, He.
  - now rewrite list_lookup_alter_ne.
Qed.

Lemma inputCallback_Some st i e :
  c_elements st !! i = Some e ->
  inputCallback st i =
    mkCollecting (alter marked i (c_elements st))
                 (c_isValid st && negb (rejected (text e)))
                 (c_data st ++ [collected (text e)]).
Proof.
  intros He. unfold inputCallback. rewrite He.
  rewrite <- (insert_is_alter marked _ _ _ He).
  unfold marked, rejected, collected. fold (text e).
  destruct (bool_decide (text e = [])); simpl.
  - now rewrite andb_true_r.
  - destruct (isNaN (text e) || lessThan (parseFloat (text e)) zero); simpl.
    + now rewrite andb_false_r.
    + now rewrite andb_true_r.
Qed.

Lemma inputCallback_None st i :
  c_elements st !! i = None -> inputCallback st i = st.
Proof. intros He. unfold inputCallback. now rewrite He. Qed.

Lemma text_lookup_alter (els : list Element) (i j : nat) :
  text <$> alter marked i els !! j = text <$> els !! j.
Proof.
  destruct (decide (i = j)) as [<-|Hne].
  - rewrite list_lookup_alter_eq. destruct (els !! i); simpl; [|reflexivity].
    now rewrite text_marked.
  - now rewrite list_lookup_alter_ne.
Qed.

Lemma texts_cons i nodes els :
  texts (i :: nodes) els =
    match els !! i with
    | Some e => text e :: texts nodes els
    | None => texts nodes els
    end.
Proof. unfold texts; simpl. now destruct (els !! i). Qed.

Lemma texts_alter nodes (els : list Element) (i : nat) :
  texts nodes (alter marked i els) = texts nodes els.
Proof.
  induction nodes as [|j nodes IH]; [reflexivity|].
  rewrite !texts_cons, IH.
  pose proof (text_lookup_alter els i j) as H.
  destruct (alter marked i els !! j), (els !! j); simpl in H; congruence.
Qed.

Lemma texts_markAll nodes nodes' els :
  texts nodes (markAll nodes' els) = texts nodes els.
Proof.
  revert els. induction nodes' as [|i nodes' IH]; intros els; simpl; [reflexivity|].
  now rewrite IH, texts_alter.
Qed.

(** A [forEach] in closed form: the flag, the array and the elements it
    leaves, from the texts of its inputs. *)
Lemma forEach_spec nodes st :
  forEach nodes st =
    mkCollecting
      (markAll nodes (c_elements st))
      (c_isValid st && forallb (fun t => negb (rejected t)) (texts nodes (c_elements st)))
      (c_data st ++ map collected (texts nodes (c_elements st))).
Proof.
  revert st. induction nodes as [|i nodes IH]; intros st.
  - destruct st; simpl. now rewrite andb_true_r, app_nil_r.
  - change (forEach (i :: nodes) st) with (forEach nodes (inputCallback st i)).
    rewrite IH, texts_cons. simpl markAll.
    destruct (c_elements st !! i) as [e|] eqn:He.
    + rewrite (inputCallback_Some _ _ _ He); simpl.
      rewrite texts_alter, <- app_assoc, andb_assoc. reflexivity.
    + rewrite (inputCallback_None _ _ He).
      rewrite (alter_absent _ _ _ He).
      reflexivity.
Qed.

Lemma markAll_lookup nodes els j :
  markAll nodes els !! j =
    (if bool_decide (j ∈ nodes) then marked else id) <$> els !! j.
Proof.
  revert els. induction nodes as [|i nodes IH]; intros els; simpl.
  - now destruct (els !! j).
  - rewrite IH. destruct (decide (i = j)) as [<-|Hne].
    + rewrite list_lookup_alter_eq.
      rewrite (bool_decide_eq_true_2 (i ∈ i :: nodes)) by apply list_elem_of_here.
      destruct (els !! i) as [e|]; simpl; [|reflexivity].
      destruct (bool_decide (i ∈ nodes)); simpl; [now rewrite marked_marked | reflexivity].
    + rewrite list_lookup_alter_ne by assumption.
      assert (Hiff : bool_decide (j ∈ i :: nodes) = bool_decide (j ∈ nodes)).
      { apply bool_decide_ext. rewrite elem_of_cons. intuition congruence. }
      now rewrite Hiff.
Qed.

(** ** The node lists *)

Lemma elem_of_querySelectorAll cls els i :
  i ∈ querySelectorAll cls els <-> exists e, els !! i = Some e /\ contains cls e = true.
Proof.
  unfold querySelectorAll. rewrite list_elem_of_In, filter_In, in_seq. split.
  - intros [_ H]. destruct (els !! i) as [e|]; [eauto | discriminate].
  - intros (e & He & Hc). rewrite He. split; [|assumption].
    apply lookup_lt_Some in He. lia.
Qed.

Lemma querySelectorAll_snoc cls els x :
  querySelectorAll cls (els ++ [x]) =
    querySelectorAll cls els ++ (if contains cls x then [length els] else []).
Proof.
  unfold querySelectorAll.
  rewrite List.length_app, List.seq_app, List.filter_app; simpl. f_equal.
  - apply filter_ext_in. intros i Hi. apply in_seq in Hi.
    rewrite lookup_app_l by lia. reflexivity.
  - rewrite list_lookup_middle by reflexivity. reflexivity.
Qed.

Lemma texts_app nodes nodes' els :
  texts (nodes ++ nodes') els = texts nodes els ++ texts nodes' els.
Proof.
  induction nodes as [|i nodes IH]; [reflexivity|].
  rewrite <- app_comm_cons, !texts_cons, IH. now destruct (els !! i).
Qed.

Lemma texts_app_l nodes (els els' : list Element) :
  Forall (fun i => (i < length els)%nat) nodes ->
  texts nodes (els ++ els') = texts nodes els.
Proof.
  induction 1 as [|i nodes Hi _ IH]; [reflexivity|].
  rewrite !texts_cons, IH, lookup_app_l by assumption. reflexivity.
Qed.

Lemma querySelectorAll_bound cls els :
  Forall (fun i => (i < length els)%nat) (querySelectorAll cls els).
Proof.
  apply Forall_forall. intros i Hi.
  apply elem_of_querySelectorAll in Hi as (e & He & _).
  now apply lookup_lt_Some in He.
Qed.

(** The texts of a node list are those of the elements of the class, in
    document order. *)
Lemma texts_querySelectorAll cls els :
  texts (querySelectorAll cls els) els = map text (List.filter (contains cls) els).
Proof.
  induction els as [|x els IH] using rev_ind; [reflexivity|].
  rewrite querySelectorAll_snoc, texts_app, List.filter_app, List.map_app.
  rewrite texts_app_l by apply querySelectorAll_bound. rewrite IH. f_equal.
  simpl. destruct (contains cls x); [|reflexivity].
  rewrite texts_cons, list_lookup_middle by reflexivity. reflexivity.
Qed.

(** [validateAndCollectData] in closed form. *)
Lemma validateAndCollectData_spec d :
  validateAndCollectData d =
    (mkResult
       (forallb (fun t => negb (rejected t)) (incomeTexts d)
        && forallb (fun t => negb (rejected t)) (expenseTexts d))
       (map collected (incomeTexts d))
       (map collected (expenseTexts d)),
     mkDocument (map processed (elements d)) (budgetChart d)).
Proof.
  unfold validateAndCollectData, incomeTexts, expenseTexts.
  rewrite !forEach_spec; simpl.
  rewrite texts_markAll, !texts_querySelectorAll. do 2 f_equal.
  apply list_eq; intros j.
  rewrite !markAll_lookup, list_lookup_fmap.
  destruct (elements d !! j) as [e|] eqn:He; simpl; [|reflexivity]. f_equal.
  assert (Hsel : forall cls,
    bool_decide (j ∈ querySelectorAll cls (elements d)) = contains cls e).
  { intros cls. apply eq_true_iff_eq.
    rewrite bool_decide_eq_true, elem_of_querySelectorAll. split.
    - intros (e' & He' & Hc). congruence.
    - eauto. }
  rewrite !Hsel. unfold processed, isField.
  destruct (contains (js "income-input") e), (contains (js "expense-input") e);
    simpl; auto using marked_marked.
Qed.

Lemma length_querySelectorAll cls els :
  length (querySelectorAll cls els) = length (List.filter (contains cls) els).
Proof.
  induction els as [|x els IH] using rev_ind; [reflexivity|].
  rewrite querySelectorAll_snoc, List.filter_app, !List.length_app, IH. simpl.
  now destruct (contains cls x).
Qed.

Lemma lookup_rank cls (els : list Element) i e :
  els !! i = Some e -> contains cls e = true ->
  List.filter (contains cls) els !! rank cls els i = Some e.
Proof.
  intros He Hc. unfold rank.
  assert (Hsplit : List.filter (contains cls) els =
            List.filter (contains cls) (take i els)
            ++ e :: List.filter (contains cls) (drop (S i) els)).
  { rewrite <- (take_drop_middle els i e He) at 1.
    rewrite List.filter_app. simpl. now rewrite Hc. }
  rewrite Hsplit. now apply list_lookup_middle.
Qed.

(** ** One text *)

Lemma rejected_true_iff t : rejected t = true <-> failsValidation t.
Proof.
  unfold rejected, failsValidation.
  rewrite andb_true_iff, negb_true_iff, bool_decide_eq_false, orb_true_iff.
  reflexivity.
Qed.

Lemma rejected_false_iff t : rejected t = false <-> ~ failsValidation t.
Proof. rewrite <- rejected_true_iff. now destruct (rejected t). Qed.

Lemma collected_rejected t : rejected t = true -> collected t = zero.
Proof.
  unfold rejected, collected. destruct (bool_decide (t = [])); simpl; [reflexivity|].
  now intros ->.
Qed.

Lemma collected_empty t : t = [] -> rejected t = false /\ collected t = zero.
Proof.
  intros ->. unfold rejected, collected.
  now rewrite bool_decide_eq_true_2 by reflexivity.
Qed.

Lemma collected_parsesNonNegative t :
  parsesNonNegative t -> rejected t = false /\ collected t = parseFloat t.
Proof.
  intros (Hne & Hnan & Hlt). unfold rejected, collected.
  rewrite Hnan, Hlt, bool_decide_eq_false_2 by assumption. now split.
Qed.

(** ** The elements after the call *)

Lemma isField_processed e : isField (processed e) = isField e.
Proof. unfold processed. destruct (isField e) eqn:H; [now rewrite isField_marked | assumption]. Qed.

Lemma value_processed e : value (processed e) = value e.
Proof. unfold processed. destruct (isField e); [apply value_marked | reflexivity]. Qed.

Lemma contains_processed t e :
  t <> js "is-invalid" -> contains t (processed e) = contains t e.
Proof. unfold processed. destruct (isField e); [apply contains_marked | reflexivity]. Qed.

Lemma processed_processed e : processed (processed e) = processed e.
Proof.
  unfold processed at 1. rewrite isField_processed. unfold processed.
  destruct (isField e); [apply marked_marked | reflexivity].
Qed.

Lemma filter_map_processed cls els :
  cls <> js "is-invalid" ->
  List.filter (contains cls) (map processed els) =
    map processed (List.filter (contains cls) els).
Proof.
  intros Hne. induction els as [|e els IH]; simpl; [reflexivity|].
  rewrite contains_processed by assumption.
  destruct (contains cls e); simpl; now rewrite IH.
Qed.

Lemma texts_processed cls els :
  cls <> js "is-invalid" ->
  map text (List.filter (contains cls) (map processed els)) =
    map text (List.filter (contains cls) els).
Proof.
  intros Hne. rewrite filter_map_processed, List.map_map by assumption.
  apply map_ext. intros e. unfold text. now rewrite value_processed.
Qed.

Lemma elem_of_filter_contains cls (els : list Element) e :
  e ∈ List.filter (contains cls) els <-> e ∈ els /\ contains cls e = true.
Proof. now rewrite !list_elem_of_In, filter_In. Qed.

Lemma field_of_income e : contains (js "income-input") e = true -> isField e = true.
Proof. unfold isField. now intros ->. Qed.

Lemma field_of_expense e : contains (js "expense-input") e = true -> isField e = true.
Proof. unfold isField. intros ->. apply orb_true_r. Qed.

(** ** validateAndCollectData *)

(** C1. When the trimmed text of every income and expense input parses as
    a non-negative number, [validateAndCollectData] returns
    [isValid = true], [incomeData] and [expenseData] are the [parseFloat] of
    those texts in field order (twelve values for twelve fields), and no
    field carries [is-invalid] afterwards. Unless a text is a binary, octal
    or hexadecimal literal, the stored value is also the Number [isNaN]
    tested. *)
Theorem validate_non_negative_inputs (d : Document) :
  (forall e, e ∈ elements d -> isField e = true -> parsesNonNegative (text e)) ->
  let r := (validateAndCollectData d).1 in
  let d' := (validateAndCollectData d).2 in
  isValid r = true
  /\ incomeData r = map parseFloat (incomeTexts d)
  /\ expenseData r = map parseFloat (expenseTexts d)
  /\ length (incomeData r) = length (querySelectorAll (js "income-input") (elements d))
  /\ length (expenseData r) = length (querySelectorAll (js "expense-input") (elements d))
  /\ (forall e', e' ∈ elements d' -> isField e' = true ->
        contains (js "is-invalid") e' = false)
  /\ (forall t, t ∈ incomeTexts d ++ expenseTexts d -> scanNonDecimal t = None ->
        parseFloat t = StringToNumber t).
Proof.
  intros Hall. rewrite validateAndCollectData_spec; simpl.
  assert (Hinc : forall t, t ∈ incomeTexts d ->
            exists e, t = text e /\ parsesNonNegative t).
  { intros t Ht. apply list_elem_of_fmap in Ht as (e & -> & He).
    apply elem_of_filter_contains in He as [He Hc]. exists e. split; [reflexivity|].
    apply Hall; [assumption | now apply field_of_income]. }
  assert (Hexp : forall t, t ∈ expenseTexts d ->
            exists e, t = text e /\ parsesNonNegative t).
  { intros t Ht. apply list_elem_of_fmap in Ht as (e & -> & He).
    apply elem_of_filter_contains in He as [He Hc]. exists e. split; [reflexivity|].
    apply Hall; [assumption | now apply field_of_expense]. }
  split; [|split; [|split; [|split; [|split; [|split]]]]].
  - apply andb_true_iff; split; apply forallb_forall; intros t Ht;
      apply list_elem_of_In in Ht; apply negb_true_iff;
      [apply Hinc in Ht | apply Hexp in Ht]; destruct Ht as (_ & _ & Ht);
      now apply collected_parsesNonNegative.
  - apply map_ext_in. intros t Ht. apply list_elem_of_In, Hinc in Ht.
    destruct Ht as (_ & _ & Ht). now apply collected_parsesNonNegative.
  - apply map_ext_in. intros t Ht. apply list_elem_of_In, Hexp in Ht.
    destruct Ht as (_ & _ & Ht). now apply collected_parsesNonNegative.
  - unfold incomeTexts. now rewrite !length_map, length_querySelectorAll.
  - unfold expenseTexts. now rewrite !length_map, length_querySelectorAll.
  - intros e' He' Hf. apply list_elem_of_fmap in He' as (e & -> & He).
    rewrite isField_processed in Hf. unfold processed. rewrite Hf.
    rewrite contains_invalid_marked. now apply collected_parsesNonNegative, Hall.
  - intros t Ht Hdec. apply elem_of_app in Ht.
    assert (Ht' : exists e, t = text e /\ parsesNonNegative t)
      by (destruct Ht; auto).
    destruct Ht' as (e & -> & Hne & Hnan & _).
    now apply parseFloat_StringToNumber.
Qed.

(** C2. An input whose trimmed text is not empty and is either not a
    number for [isNaN] or below zero for [parseFloat] makes the call return
    [isValid = false], has 0 at its place in the array of its class and
    carries [is-invalid] afterwards. Every input, whatever came before it,
    has at its place the value its own text gives, keeps its text, and
    carries [is-invalid] exactly when its own text fails; no array is
    shorter than its node list. *)
Theorem validate_rejected_input (d : Document) (i : nat) (e : Element) :
  elements d !! i = Some e -> isField e = true -> failsValidation (text e) ->
  let r := (validateAndCollectData d).1 in
  let d' := (validateAndCollectData d).2 in
  let income := js "income-input" in
  let expense := js "expense-input" in
  isValid r = false
  /\ (contains income e = true ->
        incomeData r !! rank income (elements d) i = Some zero)
  /\ (contains expense e = true ->
        expenseData r !! rank expense (elements d) i = Some zero)
  /\ (exists e', elements d' !! i = Some e'
        /\ contains (js "is-invalid") e' = true)
  /\ length (incomeData r) = length (querySelectorAll income (elements d))
  /\ length (expenseData r) = length (querySelectorAll expense (elements d))
  /\ (forall j ej, elements d !! j = Some ej -> isField ej = true ->
        (contains income ej = true ->
           incomeData r !! rank income (elements d) j = Some (collected (text ej)))
        /\ (contains expense ej = true ->
           expenseData r !! rank expense (elements d) j = Some (collected (text ej)))
        /\ exists ej', elements d' !! j = Some ej'
             /\ value ej' = value ej
             /\ (contains (js "is-invalid") ej' = true <-> failsValidation (text ej))).
Proof.
  intros He Hf Hfail. rewrite validateAndCollectData_spec; simpl.
  assert (Hrej : rejected (text e) = true) by now apply rejected_true_iff.
  assert (Hentry : forall cls j ej, elements d !! j = Some ej ->
            contains cls ej = true ->
            map collected (map text (List.filter (contains cls) (elements d)))
              !! rank cls (elements d) j = Some (collected (text ej))).
  { intros cls j ej Hj Hc. rewrite !list_lookup_fmap.
    now rewrite (lookup_rank cls _ _ _ Hj Hc). }
  assert (Hafter : forall j ej, elements d !! j = Some ej -> isField ej = true ->
            map processed (elements d) !! j = Some (marked ej)).
  { intros j ej Hj Hfj. rewrite list_lookup_fmap, Hj. simpl.
    unfold processed. now rewrite Hfj. }
  split; [|split; [|split; [|split; [|split; [|split]]]]].
  - apply andb_false_iff. unfold isField in Hf. apply orb_true_iff in Hf.
    destruct Hf as [Hc|Hc]; [left|right];
      (apply not_true_iff_false; intros Hall;
       rewrite forallb_forall in Hall;
       specialize (Hall (text e)); rewrite Hrej in Hall;
       enough (true = false) by discriminate; symmetry; apply Hall;
       apply in_map, filter_In; split;
       [ apply list_elem_of_In; eapply list_elem_of_lookup_2; eassumption
       | assumption ]).
  - intros Hc. unfold incomeTexts.
    rewrite (Hentry _ _ _ He Hc). now rewrite collected_rejected.
  - intros Hc. unfold expenseTexts.
    rewrite (Hentry _ _ _ He Hc). now rewrite collected_rejected.
  - exists (marked e). split; [now apply Hafter|].
    now rewrite contains_invalid_marked.
  - unfold incomeTexts. now rewrite !length_map, length_querySelectorAll.
  - unfold expenseTexts. now rewrite !length_map, length_querySelectorAll.
  - intros j ej Hj Hfj. split; [|split].
    + intros Hc. now apply Hentry.
    + intros Hc. now apply Hentry.
    + exists (marked ej). split; [now apply Hafter|]. split; [apply value_marked|].
      rewrite contains_invalid_marked. apply rejected_true_iff.
Qed.

Lemma collected_all_empty (ts : list jsstring) :
  (forall t, t ∈ ts -> t = []) ->
  forallb (fun t => negb (rejected t)) ts = true
  /\ map collected ts = replicate (length ts) zero.
Proof.
  induction ts as [|t ts IH]; intros Hall; [now split|].
  destruct IH as [IHv IHd]; [intros t' Ht'; apply Hall; now right|].
  destruct (collected_empty t) as [Hr Hc]; [apply Hall; now left|].
  simpl. now rewrite Hr, Hc, IHv, IHd.
Qed.

(** C7. When the text of each of the 12 income and 12 expense inputs is
    empty once trimmed, [validateAndCollectData] returns [isValid = true]
    with twelve zeros in each array, and no field carries [is-invalid]
    afterwards. *)
Theorem validate_empty_inputs (d : Document) :
  length (querySelectorAll (js "income-input") (elements d)) = 12%nat ->
  length (querySelectorAll (js "expense-input") (elements d)) = 12%nat ->
  (forall e, e ∈ elements d -> isField e = true -> trim (value e) = []) ->
  let r := (validateAndCollectData d).1 in
  let d' := (validateAndCollectData d).2 in
  isValid r = true
  /\ incomeData r = replicate 12 zero
  /\ expenseData r = replicate 12 zero
  /\ (forall e', e' ∈ elements d' -> isField e' = true ->
        contains (js "is-invalid") e' = false).
Proof.
  intros Hni Hne Hall. rewrite validateAndCollectData_spec; simpl.
  rewrite length_querySelectorAll in Hni, Hne.
  destruct (collected_all_empty (incomeTexts d)) as [Hvi Hdi].
  { intros t Ht. apply list_elem_of_fmap in Ht as (e & -> & He).
    apply elem_of_filter_contains in He as [He Hc].
    apply Hall; [assumption | now apply field_of_income]. }
  destruct (collected_all_empty (expenseTexts d)) as [Hve Hde].
  { intros t Ht. apply list_elem_of_fmap in Ht as (e & -> & He).
    apply elem_of_filter_contains in He as [He Hc].
    apply Hall; [assumption | now apply field_of_expense]. }
  rewrite Hvi, Hve, Hdi, Hde. unfold incomeTexts, expenseTexts.
  rewrite !length_map, Hni, Hne. repeat split.
  intros e' He' Hf. apply list_elem_of_fmap in He' as (e & -> & He).
  rewrite isField_processed in Hf. unfold processed. rewrite Hf.
  rewrite contains_invalid_marked. now apply collected_empty, Hall.
Qed.

Lemma validateAndCollectData_again d :
  validateAndCollectData (validateAndCollectData d).2 = validateAndCollectData d.
Proof.
  rewrite !validateAndCollectData_spec; simpl.
  unfold incomeTexts, expenseTexts; simpl.
  rewrite !texts_processed by discriminate.
  assert (Hels : map processed (map processed (elements d)) = map processed (elements d)).
  { rewrite List.map_map. apply map_ext. intros e. apply processed_processed. }
  now rewrite Hels.
Qed.

Lemma texts_sameButMarker cls (els1 els2 : list Element) :
  cls <> js "is-invalid" ->
  Forall2 sameButMarker els1 els2 ->
  map text (List.filter (contains cls) els1) = map text (List.filter (contains cls) els2).
Proof.
  intros Hne. induction 1 as [|e1 e2 els1 els2 [Hv Hc] _ IH]; [reflexivity|].
  simpl. rewrite (Hc cls Hne).
  destruct (contains cls e2); simpl; [|assumption].
  unfold text at 1 3. now rewrite Hv, IH.
Qed.

Lemma isField_sameButMarker e1 e2 : sameButMarker e1 e2 -> isField e1 = isField e2.
Proof. intros [_ Hc]. unfold isField. now rewrite !Hc by discriminate. Qed.

(** C8. Whatever the markers before the first call, a second call of
    [validateAndCollectData] on the page the first one left returns the same
    [isValid], [incomeData] and [expenseData] and leaves the class list of
    every element, the markers with it, as the first call left it. Two
    pages that differ only by markers get the same return value and the
    same markers on their fields. *)
Theorem validate_idempotent (d : Document) :
  validateAndCollectData (validateAndCollectData d).2 = validateAndCollectData d
  /\ forall d2, Forall2 sameButMarker (elements d) (elements d2) ->
       (validateAndCollectData d).1 = (validateAndCollectData d2).1
       /\ Forall2 (fun e1 e2 => isField e1 = true ->
                     contains (js "is-invalid") e1 = contains (js "is-invalid") e2)
            (elements (validateAndCollectData d).2)
            (elements (validateAndCollectData d2).2).
Proof.
  split.
  - apply validateAndCollectData_again.
  - intros d2 Hsame. rewrite !validateAndCollectData_spec; simpl.
    unfold incomeTexts, expenseTexts.
    rewrite (texts_sameButMarker (js "income-input") _ _ ltac:(discriminate) Hsame).
    rewrite (texts_sameButMarker (js "expense-input") _ _ ltac:(discriminate) Hsame).
    split; [reflexivity|].
    apply Forall2_fmap. eapply Forall2_impl; [exact Hsame|].
    intros e1 e2 Hs. simpl. rewrite isField_processed. intros Hf.
    pose proof (isField_sameButMarker _ _ Hs) as Hf2. rewrite Hf in Hf2.
    unfold processed. rewrite Hf, <- Hf2, !contains_invalid_marked.
    destruct Hs as [Hv _]. unfold text. now rewrite Hv.
Qed.

Lemma validateAndCollectData_field d j ej :
  elements d !! j = Some ej -> isField ej = true ->
  let r := (validateAndCollectData d).1 in
  let d' := (validateAndCollectData d).2 in
  (contains (js "income-input") ej = true ->
     incomeData r !! rank (js "income-input") (elements d) j = Some (collected (text ej)))
  /\ (contains (js "expense-input") ej = true ->
     expenseData r !! rank (js "expense-input") (elements d) j = Some (collected (text ej)))
  /\ elements d' !! j = Some (marked ej).
Proof.
  intros Hj Hf. rewrite validateAndCollectData_spec; simpl.
  unfold incomeTexts, expenseTexts. split; [|split].
  - intros Hc. rewrite !list_lookup_fmap. now rewrite (lookup_rank _ _ _ _ Hj Hc).
  - intros Hc. rewrite !list_lookup_fmap. now rewrite (lookup_rank _ _ _ _ Hj Hc).
  - rewrite list_lookup_fmap, Hj. simpl. unfold processed. now rewrite Hf.
Qed.

(** C9. The text [0x10] passes the validity test, [isNaN] reading it as 16,
    while [parseFloat] stores 0 for it; the text [Infinity] passes and
    Infinity is stored. On every page, an income or expense input that
    holds one of the two texts gets the [parseFloat] of its text at its
    place and carries no [is-invalid] afterwards. On a page of text inputs
    with these two texts in the January inputs the call returns
    [isValid = true], 0 and Infinity at their places, and marks no field. *)
Theorem validity_parser_differs_from_value_parser :
  (isNaN (js "0x10") = false
   /\ StringToNumber (js "0x10") = ofZ 16
   /\ parseFloat (js "0x10") = zero
   /\ rejected (js "0x10") = false
   /\ collected (js "0x10") = zero
   /\ collected (js "0x10") <> StringToNumber (js "0x10"))
  /\ (isNaN (js "Infinity") = false
      /\ rejected (js "Infinity") = false
      /\ collected (js "Infinity") = Infinity)
  /\ (forall d i e,
        elements d !! i = Some e -> isField e = true ->
        text e = js "0x10" \/ text e = js "Infinity" ->
        let r := (validateAndCollectData d).1 in
        let d' := (validateAndCollectData d).2 in
        (contains (js "income-input") e = true ->
           incomeData r !! rank (js "income-input") (elements d) i
             = Some (parseFloat (text e)))
        /\ (contains (js "expense-input") e = true ->
           expenseData r !! rank (js "expense-input") (elements d) i
             = Some (parseFloat (text e)))
        /\ exists e', elements d' !! i = Some e'
             /\ contains (js "is-invalid") e' = false)
  /\ validateAndCollectData textForm =
       (mkResult true (zero :: replicate 11 zero) (Infinity :: replicate 11 zero),
        textForm).
Proof.
  split; [|split; [|split]].
  - repeat split; try (vm_compute; reflexivity). vm_compute. discriminate.
  - repeat split; vm_compute; reflexivity.
  - intros d i e He Hf Ht.
    assert (Hc : collected (text e) = parseFloat (text e) /\ rejected (text e) = false)
      by (destruct Ht as [-> | ->]; split; vm_compute; reflexivity).
    destruct Hc as [Hc Hr].
    destruct (validateAndCollectData_field d i e He Hf) as (Hi & Hx & Hm).
    rewrite Hc in Hi, Hx. split; [exact Hi|]. split; [exact Hx|].
    exists (marked e). split; [exact Hm|]. now rewrite contains_invalid_marked.
  - vm_compute. reflexivity.
Qed.

(** ** renderChart and the download handler *)

Lemma filter_live_destroyed (old : list Chart) :
  Forall (fun c' => destroyed c' = true) old ->
  List.filter (fun c => negb (destroyed c)) old = [].
Proof.
  induction 1 as [|c old Hc _ IH]; [reflexivity|]. simpl. now rewrite Hc.
Qed.

Lemma live_singleOwner w :
  singleOwner w ->
  match chartInstance w with
  | None => live w = []
  | Some i => exists c, live w = [c] /\ instances w !! i = Some c
  end.
Proof.
  unfold singleOwner, live. destruct (chartInstance w) as [i|].
  - intros (old & c & -> & -> & Hold & Hc). exists c. split.
    + rewrite List.filter_app, filter_live_destroyed by assumption.
      simpl. now rewrite Hc.
    + now apply list_lookup_middle.
  - now intros ->.
Qed.

Section HostProperties.

Variable toLocaleString : number -> jsstring.
Variable toBase64Image : Chart -> jsstring.

Lemma renderChart_rejects w :
  isValid (validateAndCollectData (document w)).1 = false ->
  renderChart toLocaleString w =
    (mkWorld (validateAndCollectData (document w)).2 (chartInstance w) (instances w)
       (alerts w ++ [validationMessage]) (downloads w),
     Returned).
Proof.
  intros Hv. unfold renderChart.
  destruct (validateAndCollectData (document w)) as [r d']. simpl in *.
  now rewrite Hv.
Qed.

Lemma renderChart_throws w :
  isValid (validateAndCollectData (document w)).1 = true ->
  budgetChart (document w) = None ->
  renderChart toLocaleString w =
    (mkWorld (validateAndCollectData (document w)).2 (chartInstance w) (instances w)
       (alerts w) (downloads w),
     Thrown).
Proof.
  intros Hv Hc. unfold renderChart.
  pose proof (validateAndCollectData_spec (document w)) as Hspec.
  destruct (validateAndCollectData (document w)) as [r d']. simpl in *.
  rewrite Hv. simpl. injection Hspec as _ ->. simpl. now rewrite Hc.
Qed.

Lemma renderChart_builds w ctx :
  isValid (validateAndCollectData (document w)).1 = true ->
  budgetChart (document w) = Some ctx ->
  let r := (validateAndCollectData (document w)).1 in
  let existing :=
    match chartInstance w with
    | Some i => alter destroy i (instances w)
    | None => instances w
    end in
  renderChart toLocaleString w =
    (mkWorld (validateAndCollectData (document w)).2
       (Some (length existing))
       (existing ++ [mkChart ctx (chartConfig toLocaleString (incomeData r) (expenseData r)) false])
       (alerts w) (downloads w),
     Returned).
Proof.
  intros Hv Hc. unfold renderChart.
  pose proof (validateAndCollectData_spec (document w)) as Hspec.
  destruct (validateAndCollectData (document w)) as [r d']. simpl in *.
  rewrite Hv. simpl. injection Hspec as _ Hd. rewrite Hd at 1. simpl.
  now rewrite Hc.
Qed.

(** How [renderChart] ends, from the page it finds. *)
Lemma renderChart_cases w :
  (isValid (validateAndCollectData (document w)).1 = false)
  \/ (isValid (validateAndCollectData (document w)).1 = true
      /\ budgetChart (document w) = None)
  \/ (isValid (validateAndCollectData (document w)).1 = true
      /\ exists ctx, budgetChart (document w) = Some ctx).
Proof.
  destruct (isValid (validateAndCollectData (document w)).1); [|now left].
  destruct (budgetChart (document w)); eauto.
Qed.

Lemma alter_destroy_last (old : list Chart) c :
  alter destroy (length old) (old ++ [c]) = old ++ [destroy c].
Proof.
  rewrite alter_app_r_alt by lia. now rewrite Nat.sub_diag.
Qed.

Lemma singleOwner_renderChart w :
  singleOwner w -> singleOwner (renderChart toLocaleString w).1.
Proof.
  intros Hw. destruct (renderChart_cases w) as [Hv|[[Hv Hc]|[Hv [ctx Hc]]]].
  - now rewrite (renderChart_rejects _ Hv).
  - now rewrite (renderChart_throws _ Hv Hc).
  - rewrite (renderChart_builds _ _ Hv Hc). unfold singleOwner in *. simpl.
    destruct (chartInstance w) as [i|].
    + destruct Hw as (old & c & -> & -> & Hold & Hlive).
      rewrite alter_destroy_last.
      eexists _, _. split; [reflexivity|]. split; [reflexivity|]. split; [|reflexivity].
      apply Forall_app. split; [assumption|]. now repeat constructor.
    + rewrite Hw. exists [], (mkChart ctx (chartConfig toLocaleString
        (incomeData (validateAndCollectData (document w)).1)
        (expenseData (validateAndCollectData (document w)).1)) false).
      now repeat split.
Qed.

Lemma downloadChart_state w :
  chartInstance (downloadChart toBase64Image w).1 = chartInstance w
  /\ instances (downloadChart toBase64Image w).1 = instances w
  /\ document (downloadChart toBase64Image w).1 = document w.
Proof.
  unfold downloadChart. destruct (chartInstance w) as [i|] eqn:Hi; simpl; [|easy].
  destruct (instances w !! i); simpl; auto.
Qed.

Lemma singleOwner_handle w ev :
  singleOwner w -> singleOwner (handle toLocaleString toBase64Image w ev).
Proof.
  intros Hw. destruct ev; simpl; try now apply singleOwner_renderChart.
  - destruct (downloadChart_state w) as (Hc & Hi & _).
    unfold singleOwner. now rewrite Hc, Hi.
  - exact Hw.
Qed.

Lemma singleOwner_run w evs :
  singleOwner w -> singleOwner (run toLocaleString toBase64Image w evs).
Proof.
  revert w. induction evs as [|ev evs IH]; intros w Hw; [exact Hw|].
  simpl. apply IH. now apply singleOwner_handle.
Qed.

Lemma singleOwner_reachable d evs :
  singleOwner (run toLocaleString toBase64Image (initial d) evs).
Proof. now apply singleOwner_run. Qed.

Lemma renderChart_keeps_page w ctx :
  isValid (validateAndCollectData (document w)).1 = true ->
  budgetChart (document w) = Some ctx ->
  let w' := (renderChart toLocaleString w).1 in
  isValid (validateAndCollectData (document w')).1 = true
  /\ budgetChart (document w') = Some ctx
  /\ length (instances w') = S (length (instances w)).
Proof.
  intros Hv Hc. rewrite (renderChart_builds _ _ Hv Hc). cbn [fst document instances].
  split; [|split].
  - rewrite validateAndCollectData_again. exact Hv.
  - rewrite validateAndCollectData_spec. exact Hc.
  - rewrite List.length_app. simpl.
    destruct (chartInstance w); [rewrite length_alter|]; lia.
Qed.

Lemma run_renders w ctx n :
  isValid (validateAndCollectData (document w)).1 = true ->
  budgetChart (document w) = Some ctx ->
  length (instances (run toLocaleString toBase64Image w (replicate n UpdateChartClick)))
    = (length (instances w) + n)%nat.
Proof.
  revert w. induction n as [|n IH]; intros w Hv Hc; [simpl; lia|].
  destruct (renderChart_keeps_page w ctx Hv Hc) as (Hv' & Hc' & Hlen).
  change (run toLocaleString toBase64Image w (replicate (S n) UpdateChartClick))
    with (run toLocaleString toBase64Image (renderChart toLocaleString w).1
            (replicate n UpdateChartClick)).
  rewrite (IH _ Hv' Hc'), Hlen. lia.
Qed.

End HostProperties.

Section Rendering.

Variable toLocaleString : number -> jsstring.
Variable toBase64Image : Chart -> jsstring.

(** C3. When [validateAndCollectData] returns [isValid = false],
    [renderChart] shows the message "Please fix the validation errors
    before updating the chart." once and returns: no chart is built,
    [chartInstance] and every chart object stay as they were, and so does
    the number of live charts. *)
Theorem renderChart_invalid (w : World) :
  isValid (validateAndCollectData (document w)).1 = false ->
  let w' := (renderChart toLocaleString w).1 in
  (renderChart toLocaleString w).2 = Returned
  /\ alerts w' =
       alerts w ++ [js "Please fix the validation errors before updating the chart."]
  /\ instances w' = instances w
  /\ chartInstance w' = chartInstance w
  /\ length (live w') = length (live w)
  /\ downloads w' = downloads w.
Proof.
  intros Hv. rewrite (renderChart_rejects _ _ Hv). now repeat split.
Qed.

(** C4. In every state the page can reach at most one chart is live. Once
    a chart was built exactly one is, the one [chartInstance] refers to.
    Whenever [renderChart] builds a chart, every chart that existed before
    has been destroyed and the new one is the only live one; so after any
    number of renders of a page that passes validation, each has built a
    chart and exactly one is live. *)
Theorem at_most_one_live_chart (d : Document) (evs : list Event) :
  let w := run toLocaleString toBase64Image (initial d) evs in
  (length (live w) <= 1)%nat
  /\ (chartInstance w = None <-> instances w = [])
  /\ (instances w <> [] ->
        exists i c, chartInstance w = Some i /\ instances w !! i = Some c
          /\ live w = [c])
  /\ (forall w', renderChart toLocaleString w = (w', Returned) ->
        instances w' <> instances w ->
        exists old c, instances w' = old ++ [c]
          /\ length old = length (instances w)
          /\ Forall (fun c' => destroyed c' = true) old
          /\ destroyed c = false
          /\ chartInstance w' = Some (length old)
          /\ live w' = [c])
  /\ (forall n, isValid (validateAndCollectData (document w)).1 = true ->
        budgetChart (document w) <> None ->
        let wn := run toLocaleString toBase64Image w (replicate (S n) UpdateChartClick) in
        length (instances wn) = (length (instances w) + S n)%nat
        /\ length (live wn) = 1%nat).
Proof.
  intros w.
  pose proof (singleOwner_reachable toLocaleString toBase64Image d evs) as Hw.
  fold w in Hw. pose proof (live_singleOwner w Hw) as Hlive.
  split; [|split; [|split; [|split]]].
  - destruct (chartInstance w); [destruct Hlive as (c & -> & _)|rewrite Hlive]; simpl; lia.
  - unfold singleOwner in Hw. destruct (chartInstance w).
    + destruct Hw as (old & c & -> & _). split; [discriminate|].
      intros H. now destruct old.
    + now split.
  - intros Hne. unfold singleOwner in Hw. destruct (chartInstance w) as [i|].
    + destruct Hlive as (c & Hl & Hi). eauto.
    + contradiction.
  - intros w' Hr Hnew.
    pose proof (singleOwner_renderChart toLocaleString w Hw) as Hw'.
    rewrite Hr in Hw'. simpl in Hw'.
    pose proof (live_singleOwner w' Hw') as Hlive'.
    destruct (renderChart_cases w) as [Hv|[[Hv Hc]|[Hv [ctx Hc]]]].
    + rewrite (renderChart_rejects _ _ Hv) in Hr. injection Hr as <-. now elim Hnew.
    + rewrite (renderChart_throws _ _ Hv Hc) in Hr. discriminate.
    + rewrite (renderChart_builds _ _ _ Hv Hc) in Hr. injection Hr as <-.
      simpl in *. destruct Hlive' as (c & Hl & _).
      destruct Hw' as (old & c' & Heq & Hlen & Hold & Hc').
      apply app_inj_tail in Heq as [<- <-].
      eexists _, _. split; [reflexivity|]. split.
      { destruct (chartInstance w); [apply length_alter | reflexivity]. }
      split; [assumption|]. split; [reflexivity|]. split; [reflexivity|].
      unfold live. simpl.
      now rewrite List.filter_app, filter_live_destroyed by assumption.
  - intros n Hv Hc wn.
    destruct (budgetChart (document w)) as [ctx|] eqn:Hctx; [|contradiction].
    assert (Hlen : length (instances wn) = (length (instances w) + S n)%nat)
      by (apply (run_renders _ _ _ ctx); assumption).
    split; [exact Hlen|].
    pose proof (singleOwner_run toLocaleString toBase64Image w
                  (replicate (S n) UpdateChartClick) Hw) as Hwn.
    fold wn in Hwn. pose proof (live_singleOwner wn Hwn) as Hlive_n.
    unfold singleOwner in Hwn. destruct (chartInstance wn).
    + now destruct Hlive_n as (c & -> & _).
    + rewrite Hwn in Hlen. simpl in Hlen. lia.
Qed.

(** C5. On a page whose inputs all pass validation and that has the
    canvas, [renderChart] builds exactly one chart and makes it
    [chartInstance]. Its configuration has type [bar], the labels Jan to
    Dec, the two datasets Income and Expenses with the collected values in
    order, a value axis that begins at zero with ticks written as [$]
    followed by the locale's rendering of the value, and a tooltip written
    as the series label, [: $] and the locale's rendering of the value:
    "$1,200" and "Income: $1,000" where the locale separates thousands with
    a comma. *)
Theorem renderChart_configuration (w : World) (ctx : Context2D) :
  isValid (validateAndCollectData (document w)).1 = true ->
  budgetChart (document w) = Some ctx ->
  let r := (validateAndCollectData (document w)).1 in
  let w' := (renderChart toLocaleString w).1 in
  exists old chart,
    (renderChart toLocaleString w).2 = Returned
    /\ instances w' = old ++ [chart]
    /\ length old = length (instances w)
    /\ chartInstance w' = Some (length old)
    /\ destroyed chart = false
    /\ type (config chart) = js "bar"
    /\ labels (config chart) =
         [ js "Jan"; js "Feb"; js "Mar"; js "Apr"; js "May"; js "Jun";
           js "Jul"; js "Aug"; js "Sep"; js "Oct"; js "Nov"; js "Dec" ]
    /\ map label (datasets (config chart)) = [js "Income"; js "Expenses"]
    /\ map data (datasets (config chart)) = [incomeData r; expenseData r]
    /\ incomeData r = map collected (incomeTexts (document w))
    /\ expenseData r = map collected (expenseTexts (document w))
    /\ y_beginAtZero (config chart) = true
    /\ (forall v, y_ticks_callback (config chart) v = js "$" ++ toLocaleString v)
    /\ (forall c, tooltip_label (config chart) c =
          dataset_label c ++ js ": $" ++ toLocaleString (parsed_y c))
    /\ (toLocaleString (ofZ 1200) = js "1,200" ->
          y_ticks_callback (config chart) (ofZ 1200) = js "$1,200")
    /\ (toLocaleString (ofZ 1000) = js "1,000" ->
          tooltip_label (config chart) (mkTooltipContext (js "Income") (ofZ 1000))
            = js "Income: $1,000").
Proof.
  intros Hv Hc r w'. subst w'. rewrite (renderChart_builds _ _ _ Hv Hc).
  cbn [fst snd instances chartInstance]. fold r.
  eexists _, _. split; [reflexivity|]. split; [reflexivity|]. split.
  { destruct (chartInstance w); [apply length_alter | reflexivity]. }
  do 6 (split; [reflexivity|]).
  split; [subst r; now rewrite validateAndCollectData_spec|].
  split; [subst r; now rewrite validateAndCollectData_spec|].
  do 3 (split; [reflexivity|]).
  cbn [config tooltip_label y_ticks_callback chartConfig dataset_label parsed_y].
  split; intros ->; reflexivity.
Qed.

(** C6. In every state the page can reach, the download handler shows
    "Please update the chart first before downloading." and starts no
    download exactly when [chartInstance] is [null]; otherwise it shows
    nothing and starts one download, of the base64 image of the current
    chart under the name "budget-chart.png". *)
Theorem downloadChart_exports_current_chart (d : Document) (evs : list Event) :
  let w := run toLocaleString toBase64Image (initial d) evs in
  let w' := (downloadChart toBase64Image w).1 in
  (chartInstance w = None <->
     alerts w' = alerts w ++ [js "Please update the chart first before downloading."]
     /\ downloads w' = downloads w)
  /\ (forall i, chartInstance w = Some i ->
        exists chart, instances w !! i = Some chart
          /\ alerts w' = alerts w
          /\ downloads w' =
               downloads w ++ [mkDownload (toBase64Image chart) (js "budget-chart.png")])
  /\ (downloadChart toBase64Image w).2 = Returned.
Proof.
  intros w w'.
  pose proof (singleOwner_reachable toLocaleString toBase64Image d evs) as Hw.
  fold w in Hw. pose proof (live_singleOwner w Hw) as Hlive.
  subst w'. unfold downloadChart.
  destruct (chartInstance w) as [i|].
  - destruct Hlive as (c & _ & Hi). rewrite Hi. simpl. split; [|split].
    + split; [discriminate|]. intros [Ha _].
      apply (f_equal (@length jsstring)) in Ha.
      rewrite List.length_app in Ha. simpl in Ha. lia.
    + intros j [= <-]. eauto.
    + reflexivity.
  - simpl. split; [|split].
    + now split.
    + discriminate.
    + reflexivity.
Qed.

(** C10. [chartInstance] is never cleared: once it refers to a chart, as it
    does after any call of [renderChart] that builds one, it refers to one
    after every further event, and none of the messages shown from then on
    is "Please update the chart first before downloading.". *)
Theorem chartInstance_never_cleared (w : World) (evs : list Event) :
  chartInstance w <> None ->
  let w' := run toLocaleString toBase64Image w evs in
  chartInstance w' <> None
  /\ exists shown, alerts w' = alerts w ++ shown
       /\ Forall (fun m => m <> js "Please update the chart first before downloading.")
            shown.
Proof.
  revert w. induction evs as [|ev evs IH]; intros w Hw.
  - simpl. split; [assumption|]. exists []. now rewrite app_nil_r.
  - simpl.
    assert (Hstep : chartInstance (handle toLocaleString toBase64Image w ev) <> None
              /\ exists shown,
                   alerts (handle toLocaleString toBase64Image w ev) = alerts w ++ shown
                   /\ Forall (fun m => m <> js "Please update the chart first before downloading.") shown).
    { assert (Hrender : chartInstance (renderChart toLocaleString w).1 <> None
                /\ exists shown,
                     alerts (renderChart toLocaleString w).1 = alerts w ++ shown
                     /\ Forall (fun m => m <> js "Please update the chart first before downloading.") shown).
      { destruct (renderChart_cases w) as [Hv|[[Hv Hc]|[Hv [ctx Hc]]]].
        - rewrite (renderChart_rejects _ _ Hv). simpl. split; [assumption|].
          eexists. split; [reflexivity|]. now repeat constructor.
        - rewrite (renderChart_throws _ _ Hv Hc). simpl. split; [assumption|].
          exists []. now rewrite app_nil_r.
        - rewrite (renderChart_builds _ _ _ Hv Hc). simpl. split; [discriminate|].
          exists []. now rewrite app_nil_r. }
      destruct ev; simpl; try exact Hrender.
      - unfold downloadChart. destruct (chartInstance w) as [i|] eqn:Hi; [|contradiction].
        destruct (instances w !! i); simpl; rewrite ?Hi;
          (split; [discriminate|]); exists []; now rewrite app_nil_r.
      - split; [assumption|]. exists []. now rewrite app_nil_r. }
    destruct Hstep as [Hc (shown & Ha & Hs)].
    destruct (IH _ Hc) as [Hc' (shown' & Ha' & Hs')].
    split; [exact Hc'|]. exists (shown ++ shown').
    split; [now rewrite Ha', Ha, app_assoc | now apply Forall_app].
Qed.

End Rendering.

(** ** The cases of the test suite *)

Example test_mixed_inputs :
  let r := (validateAndCollectData mixedForm).1 in
  let d' := (validateAndCollectData mixedForm).2 in
  isValid r = false
  /\ incomeData r = map ofZ [100; 0; 0; 0; 500; 600; 700; 800; 900; 1000; 1100; 1200]
  /\ expenseData r = map ofZ [50; 100; 150; 200; 0; 0; 0; 400; 450; 500; 550; 600]
  /\ querySelectorAll (js "is-invalid") (elements d') = [4; 6; 11; 13]%nat.
Proof. repeat split; vm_compute; reflexivity. Qed.

Example test_render_twice :
  let w := run toLocaleString_enUS mockToBase64Image (initial validForm)
             [UpdateChartClick; UpdateChartClick] in
  map destroyed (instances w) = [true; false]
  /\ chartInstance w = Some 1%nat
  /\ alerts w = [].
Proof. repeat split; vm_compute; reflexivity. Qed.

Example test_download :
  let w := run toLocaleString_enUS mockToBase64Image (initial validForm)
             [ChartTabShown; DownloadChartClick] in
  downloads w =
    [mkDownload (js "data:image/png;base64,mockImageData") (js "budget-chart.png")]
  /\ alerts w = [].
Proof. repeat split; vm_compute; reflexivity. Qed.

Example test_download_without_chart :
  let w := run toLocaleString_enUS mockToBase64Image (initial createBudgetDOM)
             [DownloadChartClick] in
  alerts w = [downloadMessage] /\ downloads w = [] /\ chartInstance w = None.
Proof. repeat split; vm_compute; reflexivity. Qed.

(** Without the canvas [renderChart] ends in a TypeError once the inputs
    have passed validation: no chart, no message. *)
Example test_render_without_canvas :
  let w := initial (mkDocument (elements validForm) None) in
  (renderChart toLocaleString_enUS w).2 = Thrown
  /\ instances (renderChart toLocaleString_enUS w).1 = []
  /\ alerts (renderChart toLocaleString_enUS w).1 = [].
Proof. repeat split; vm_compute; reflexivity. Qed.

Lemma validate_non_negative_inputs_witness :
  (forall e, e ∈ elements validForm -> isField e = true -> parsesNonNegative (text e))
  /\ isValid (validateAndCollectData validForm).1 = true
  /\ incomeData (validateAndCollectData validForm).1 =
       map ofZ [100; 200; 300; 400; 500; 600; 700; 800; 900; 1000; 1100; 1200]
  /\ expenseData (validateAndCollectData validForm).1 =
       map ofZ [50; 100; 150; 200; 250; 300; 350; 400; 450; 500; 550; 600].
Proof.
  assert (H : forall e, e ∈ elements validForm -> isField e = true ->
                parsesNonNegative (text e)).
  { intros e He. apply list_elem_of_In in He. revert e He.
    apply (proj1 (List.Forall_forall
             (fun e => isField e = true -> parsesNonNegative (text e)) _)).
    let l := eval vm_compute in (elements validForm) in
    change (elements validForm) with l.
    repeat (apply List.Forall_cons;
            [intros _; vm_compute; split; [discriminate | split; reflexivity]|]).
    apply List.Forall_nil. }
  split; [exact H|].
  destruct (validate_non_negative_inputs validForm H) as (Hv & Hi & He & _).
  split; [exact Hv|]. split; [rewrite Hi | rewrite He]; vm_compute; reflexivity.
Defined.

Lemma validate_rejected_input_witness :
  let e := mkElement [js "form-control"; js "income-input"] (js "-300") in
  elements mixedForm !! 4%nat = Some e
  /\ isField e = true
  /\ failsValidation (text e)
  /\ isValid (validateAndCollectData mixedForm).1 = false
  /\ incomeData (validateAndCollectData mixedForm).1 !! 2%nat = Some zero
  /\ incomeData (validateAndCollectData mixedForm).1 =
       map ofZ [100; 0; 0; 0; 500; 600; 700; 800; 900; 1000; 1100; 1200].
Proof.
  intros e.
  assert (He : elements mixedForm !! 4%nat = Some e) by (vm_compute; reflexivity).
  assert (Hf : isField e = true) by (vm_compute; reflexivity).
  assert (Hfail : failsValidation (text e)).
  { split; [vm_compute; discriminate | right; vm_compute; reflexivity]. }
  split; [exact He|]. split; [exact Hf|]. split; [exact Hfail|].
  destruct (validate_rejected_input mixedForm 4 e He Hf Hfail)
    as (Hv & Hi & _ & _ & _ & _ & _).
  split; [exact Hv|]. split; [exact (Hi eq_refl)|]. vm_compute; reflexivity.
Defined.

Lemma validate_empty_inputs_witness :
  length (querySelectorAll (js "income-input") (elements createBudgetDOM)) = 12%nat
  /\ length (querySelectorAll (js "expense-input") (elements createBudgetDOM)) = 12%nat
  /\ (forall e, e ∈ elements createBudgetDOM -> isField e = true -> trim (value e) = [])
  /\ isValid (validateAndCollectData createBudgetDOM).1 = true
  /\ incomeData (validateAndCollectData createBudgetDOM).1 = replicate 12 zero
  /\ expenseData (validateAndCollectData createBudgetDOM).1 = replicate 12 zero.
Proof.
  assert (Hi : length (querySelectorAll (js "income-input") (elements createBudgetDOM)) = 12%nat)
    by (vm_compute; reflexivity).
  assert (He : length (querySelectorAll (js "expense-input") (elements createBudgetDOM)) = 12%nat)
    by (vm_compute; reflexivity).
  assert (H : forall e, e ∈ elements createBudgetDOM -> isField e = true ->
                trim (value e) = []).
  { intros e Hin. apply list_elem_of_In in Hin. revert e Hin.
    apply (proj1 (List.Forall_forall
             (fun e => isField e = true -> trim (value e) = []) _)).
    let l := eval vm_compute in (elements createBudgetDOM) in
    change (elements createBudgetDOM) with l.
    repeat (apply List.Forall_cons; [intros _; reflexivity|]).
    apply List.Forall_nil. }
  split; [exact Hi|]. split; [exact He|]. split; [exact H|].
  destruct (validate_empty_inputs createBudgetDOM Hi He H) as (Hv & Hdi & Hde & _).
  split; [exact Hv|]. split; [exact Hdi | exact Hde].
Defined.

Lemma renderChart_invalid_witness :
  let w := initial mixedForm in
  isValid (validateAndCollectData (document w)).1 = false
  /\ alerts (renderChart toLocaleString_enUS w).1 =
       [js "Please fix the validation errors before updating the chart."]
  /\ instances (renderChart toLocaleString_enUS w).1 = []
  /\ chartInstance (renderChart toLocaleString_enUS w).1 = None.
Proof.
  intros w.
  assert (Hv : isValid (validateAndCollectData (document w)).1 = false)
    by (vm_compute; reflexivity).
  split; [exact Hv|].
  destruct (renderChart_invalid toLocaleString_enUS w Hv) as (_ & Ha & Hi & Hc & _).
  split; [exact Ha|]. split; [exact Hi | exact Hc].
Defined.

Lemma renderChart_configuration_witness :
  let w := initial validForm in
  isValid (validateAndCollectData (document w)).1 = true
  /\ budgetChart (document w) = Some (mkContext2D 0)
  /\ toLocaleString_enUS (ofZ 1000) = js "1,000"
  /\ exists chart,
       instances (renderChart toLocaleString_enUS w).1 = [chart]
       /\ chartInstance (renderChart toLocaleString_enUS w).1 = Some 0%nat
       /\ map data (datasets (config chart)) =
            [ map ofZ [100; 200; 300; 400; 500; 600; 700; 800; 900; 1000; 1100; 1200];
              map ofZ [50; 100; 150; 200; 250; 300; 350; 400; 450; 500; 550; 600] ]
       /\ y_ticks_callback (config chart) (ofZ 1200) = js "$1,200"
       /\ tooltip_label (config chart) (mkTooltipContext (js "Income") (ofZ 1000))
            = js "Income: $1,000".
Proof.
  intros w.
  assert (Hv : isValid (validateAndCollectData (document w)).1 = true)
    by (vm_compute; reflexivity).
  assert (Hc : budgetChart (document w) = Some (mkContext2D 0)) by reflexivity.
  assert (Hl : toLocaleString_enUS (ofZ 1000) = js "1,000") by (vm_compute; reflexivity).
  split; [exact Hv|]. split; [exact Hc|]. split; [exact Hl|].
  destruct (renderChart_configuration toLocaleString_enUS w (mkContext2D 0) Hv Hc)
    as (old & chart & _ & Hi & Hlen & Hci & _ & _ & _ & _ & Hd & _ & _ & _ & Ht & _ & _ & Htip).
  destruct old as [|c old]; [|discriminate Hlen].
  exists chart. split; [exact Hi|]. split; [exact Hci|].
  split; [rewrite Hd; vm_compute; reflexivity|].
  split; [rewrite Ht; vm_compute; reflexivity | exact (Htip Hl)].
Defined.

Lemma chartInstance_never_cleared_witness :
  let w := (renderChart toLocaleString_enUS (initial validForm)).1 in
  let evs := [DownloadChartClick; PageChanged mixedForm; UpdateChartClick;
              DownloadChartClick; ChartTabShown] in
  chartInstance w <> None
  /\ chartInstance (run toLocaleString_enUS mockToBase64Image w evs) <> None
  /\ alerts (run toLocaleString_enUS mockToBase64Image w evs) =
       [ js "Please fix the validation errors before updating the chart.";
         js "Please fix the validation errors before updating the chart." ]
  /\ length (downloads (run toLocaleString_enUS mockToBase64Image w evs)) = 2%nat.
Proof.
  intros w evs.
  assert (Hw : chartInstance w <> None) by (vm_compute; discriminate).
  split; [exact Hw|].
  destruct (chartInstance_never_cleared toLocaleString_enUS mockToBase64Image w evs Hw)
    as [Hc _].
  split; [exact Hc|]. split; vm_compute; reflexivity.
Defined.

(** * Further properties *)

(** ** Numbers that are never NaN *)

Lemma shr_1_nonneg mrs : 0 <= shr_m mrs -> 0 <= shr_m (shr_1 mrs).
Proof.
  destruct mrs as [m r s]. simpl. destruct m as [|p|p]; simpl; try lia.
  - destruct p; simpl; lia.
Qed.

Lemma iter_pos_shr_1_nonneg p mrs :
  0 <= shr_m mrs -> 0 <= shr_m (SpecFloat.iter_pos shr_1 p mrs).
Proof.
  revert mrs. induction p as [p IH|p IH|]; intros mrs H; simpl.
  - apply IH, IH. now apply shr_1_nonneg.
  - now apply IH, IH.
  - now apply shr_1_nonneg.
Qed.

Lemma shr_fexp_nonneg m e l :
  0 <= m -> 0 <= shr_m (fst (shr_fexp prec emax m e l)).
Proof.
  intros H. unfold shr_fexp, shr.
  assert (H0 : 0 <= shr_m (shr_record_of_loc m l)) by (destruct l as [|[]]; exact H).
  destruct (fexp prec emax (Zdigits2 m + e) - e); simpl; try assumption.
  now apply iter_pos_shr_1_nonneg.
Qed.

Lemma binary_round_aux_not_nan sx mx ex lx :
  0 <= mx -> number_isNaN (binary_round_aux prec emax sx mx ex lx) = false.
Proof.
  intros H. unfold binary_round_aux.
  pose proof (shr_fexp_nonneg mx ex lx H) as H1.
  destruct (shr_fexp prec emax mx ex lx) as [mrs' e']. simpl in H1.
  assert (H2 : 0 <= round_nearest_even (shr_m mrs') (loc_of_shr_record mrs')).
  { unfold round_nearest_even. destruct (loc_of_shr_record mrs') as [|[]]; try lia.
    destruct (Z.even (shr_m mrs')); lia. }
  pose proof (shr_fexp_nonneg _ e' loc_Exact H2) as H3.
  destruct (shr_fexp prec emax _ e' loc_Exact) as [mrs'' e'']. simpl in H3.
  destruct (shr_m mrs'') as [|p|p]; [reflexivity| |lia].
  now destruct (e'' <=? emax - prec).
Qed.

Lemma roundRatio_not_nan neg n d :
  0 <= n -> 0 < d -> number_isNaN (roundRatio neg n d) = false.
Proof.
  intros Hn Hd. unfold roundRatio, SFdiv_core_binary.
  set (s := 0 - 0 - _). set (m' := match s with Z.pos _ => _ | 0 => n | Z.neg _ => 0 end).
  assert (Hm : 0 <= m').
  { subst m'. destruct s; try lia. now apply Z.shiftl_nonneg. }
  pose proof (Z_div_mod m' d ltac:(lia)) as Hdiv.
  destruct (Z.div_eucl m' d) as [q r].
  apply binary_round_aux_not_nan. destruct Hdiv as [Heq Hr]. nia.
Qed.

Lemma roundMV_not_nan neg m e : 0 <= m -> number_isNaN (roundMV neg m e) = false.
Proof.
  intros Hm. unfold roundMV. destruct (m =? 0); [reflexivity|].
  destruct (0 <=? e) eqn:He.
  - apply roundRatio_not_nan; [|lia]. apply Z.mul_nonneg_nonneg; [lia|].
    apply Z.pow_nonneg. lia.
  - apply roundRatio_not_nan; [lia|]. apply Z.pow_pos_nonneg; lia.
Qed.

(** ** Digits and literals *)

Lemma digitOf_nonneg radix c d : digitOf radix c = Some d -> 0 <= d.
Proof.
  unfold digitOf.
  destruct ((48 <=? c)%N && (c <=? 57)%N) eqn:H1.
  - apply andb_true_iff in H1 as [H1 _]. apply N.leb_le in H1.
    destruct (Z.of_N c - 48 <? radix); intros [= <-]. lia.
  - destruct ((97 <=? c)%N && (c <=? 102)%N) eqn:H2.
    + apply andb_true_iff in H2 as [H2 _]. apply N.leb_le in H2.
      destruct (Z.of_N c - 87 <? radix); intros [= <-]. lia.
    + destruct ((65 <=? c)%N && (c <=? 70)%N) eqn:H3; [|discriminate].
      apply andb_true_iff in H3 as [H3 _]. apply N.leb_le in H3.
      destruct (Z.of_N c - 55 <? radix); intros [= <-]. lia.
Qed.

Lemma takeDigits_nonneg radix s :
  Forall (fun d => 0 <= d) (takeDigits radix s).1.
Proof.
  induction s as [|c s IH]; simpl; [constructor|].
  destruct (digitOf radix c) as [d|] eqn:Hd; [|constructor].
  destruct (takeDigits radix s) as [ds rest]. simpl in *.
  constructor; [|assumption]. eapply digitOf_nonneg. eassumption.
Qed.

Lemma digitsValue_nonneg radix ds :
  0 <= radix -> Forall (fun d => 0 <= d) ds -> 0 <= digitsValue radix ds.
Proof.
  intros Hr. unfold digitsValue.
  assert (H : forall acc, 0 <= acc -> Forall (fun d => 0 <= d) ds ->
             0 <= fold_left (fun acc d => radix * acc + d) ds acc).
  { induction ds as [|d ds IH]; intros acc Hacc Hds; simpl; [assumption|].
    inversion Hds; subst. apply IH; [nia | assumption]. }
  apply H. lia.
Qed.

(** A binary, octal or hexadecimal literal: its value is not negative, and
    read as a decimal literal it is its leading [0] and no more. *)
Lemma scanNonDecimal_Some t n :
  scanNonDecimal t = Some n ->
  0 <= n
  /\ exists c ds, t = 48%N :: c :: ds
       /\ scanStrDecimalLiteral t = Some (mkLiteral false (LitDecimal [0] [] 0), c :: ds).
Proof.
  unfold scanNonDecimal.
  destruct t as [|z t]; [discriminate|].
  destruct z as [|p]; [discriminate|].
  do 6 (try (destruct p as [p|p|]; cbn; try discriminate)).
  destruct t as [|c ds]; [discriminate|].
  assert (Hvalue : forall r, 0 <= r ->
            match takeDigits r ds with
            | (d :: ds', []) => Some (digitsValue r (d :: ds'))
            | _ => None
            end = Some n -> 0 <= n).
  { intros r Hr. pose proof (takeDigits_nonneg r ds) as Hds.
    destruct (takeDigits r ds) as [[|d ds'] [|]]; try discriminate.
    intros [= <-]. now apply digitsValue_nonneg. }
  assert (Hscan : ((c =? 98) || (c =? 66) || ((c =? 111) || (c =? 79))
                   || ((c =? 120) || (c =? 88)))%N = true ->
            scanStrDecimalLiteral (48%N :: c :: ds)
              = Some (mkLiteral false (LitDecimal [0] [] 0), c :: ds)).
  { intros Hc. repeat (apply orb_true_iff in Hc as [Hc|Hc]);
      apply N.eqb_eq in Hc; subst c; reflexivity. }
  destruct ((c =? 98)%N || (c =? 66)%N) eqn:H1.
  - intros Hn. split; [apply (Hvalue 2); [lia | exact Hn]|].
    exists c, ds. split; [reflexivity|]. apply Hscan. reflexivity.
  - destruct ((c =? 111)%N || (c =? 79)%N) eqn:H2.
    + intros Hn. split; [apply (Hvalue 8); [lia | exact Hn]|].
      exists c, ds. split; [reflexivity|]. apply Hscan. reflexivity.
    + destruct ((c =? 120)%N || (c =? 88)%N) eqn:H3; [|discriminate].
      intros Hn. split; [apply (Hvalue 16); [lia | exact Hn]|].
      exists c, ds. split; [reflexivity|]. apply Hscan. reflexivity.
Qed.

Lemma ofZ_nonneg n : 0 <= n -> ofZ n = roundMV false n 0.
Proof.
  intros H. unfold ofZ. rewrite Z.abs_eq by assumption.
  now destruct (Z.ltb_spec n 0); [lia|].
Qed.

Lemma nondecimal_text s n :
  scanNonDecimal (trim s) = Some n ->
  isNaN (trim s) = false
  /\ StringToNumber (trim s) = ofZ n
  /\ parseFloat (trim s) = zero
  /\ rejected (trim s) = false
  /\ collected (trim s) = zero.
Proof.
  intros Hn. destruct (scanNonDecimal_Some _ _ Hn) as (Hpos & c & ds & Ht & Hscan).
  assert (Hnum : StringToNumber (trim s) = ofZ n).
  { unfold StringToNumber. rewrite trim_trim. rewrite Ht in *.
    rewrite Hscan, Hn. now rewrite ofZ_nonneg. }
  assert (Hnan : isNaN (trim s) = false).
  { unfold isNaN. rewrite Hnum, ofZ_nonneg by assumption.
    now apply roundMV_not_nan. }
  assert (Hpf : parseFloat (trim s) = zero).
  { unfold parseFloat. now rewrite trimStart_trim, Hscan. }
  unfold rejected, collected. rewrite Hnan, Hpf. repeat split; try assumption.
  - now rewrite andb_false_r.
  - now destruct (bool_decide (trim s = [])).
Qed.

Lemma collected_is_number s :
  number_isNaN (collected (trim s)) = false
  /\ lessThan (collected (trim s)) zero = false.
Proof.
  unfold collected.
  destruct (bool_decide_reflect (trim s = [])) as [He|Hne]; [now split|].
  destruct (isNaN (trim s)) eqn:Hnan; [now split|]. simpl.
  destruct (lessThan (parseFloat (trim s)) zero) eqn:Hlt; [now split|].
  split; [|exact Hlt].
  destruct (scanNonDecimal (trim s)) as [n|] eqn:Hdec.
  - destruct (nondecimal_text _ _ Hdec) as (_ & _ & -> & _). reflexivity.
  - rewrite parseFloat_StringToNumber by assumption. exact Hnan.
Qed.

Lemma isValid_rejected d :
  isValid (validateAndCollectData d).1 = true <->
  forall e, e ∈ elements d -> isField e = true -> rejected (text e) = false.
Proof.
  rewrite validateAndCollectData_spec; simpl.
  rewrite andb_true_iff, !forallb_forall. unfold incomeTexts, expenseTexts. split.
  - intros [Hi He] e Hin Hf. apply negb_true_iff.
    unfold isField in Hf. apply orb_true_iff in Hf as [Hc|Hc]; [apply Hi | apply He];
      apply in_map, filter_In; split; try assumption; now apply list_elem_of_In.
  - intros Hall. split; intros t Ht; apply in_map_iff in Ht as (e & <- & He);
      apply filter_In in He as [He Hc]; apply negb_true_iff, Hall;
      try (now apply list_elem_of_In);
      [now apply field_of_income | now apply field_of_expense].
Qed.

(** X2. The flag and the markers agree: [validateAndCollectData] returns
    [isValid = true] exactly when no income or expense input has a text
    that fails validation, which is exactly when no such input carries
    [is-invalid] on the page it leaves. *)
Theorem isValid_agrees_with_markers (d : Document) :
  let r := (validateAndCollectData d).1 in
  let d' := (validateAndCollectData d).2 in
  (isValid r = true <->
     forall e, e ∈ elements d -> isField e = true -> ~ failsValidation (text e))
  /\ (isValid r = true <->
     forall e', e' ∈ elements d' -> isField e' = true ->
       contains (js "is-invalid") e' = false).
Proof.
  split.
  - rewrite isValid_rejected. split; intros H e He Hf;
      apply rejected_false_iff; auto.
  - rewrite isValid_rejected, validateAndCollectData_spec. simpl. split.
    + intros H e' He' Hf. apply list_elem_of_fmap in He' as (e & -> & He).
      rewrite isField_processed in Hf. unfold processed. rewrite Hf.
      rewrite contains_invalid_marked. auto.
    + intros H e He Hf. rewrite <- contains_invalid_marked.
      assert (Hp : processed e = marked e) by (unfold processed; now rewrite Hf).
      rewrite <- Hp. apply H; [|now rewrite isField_processed].
      apply list_elem_of_fmap. eauto.
Qed.

Lemma NoDup_add token e : NoDup (classList e) -> NoDup (classList (add token e)).
Proof.
  intros H. unfold add, contains; simpl.
  destruct (bool_decide_reflect (token ∈ classList e)) as [Hin|Hin]; [assumption|].
  apply NoDup_app. split; [assumption|]. split; [|apply NoDup_singleton].
  intros t Ht Ht'. apply list_elem_of_singleton in Ht'. now subst.
Qed.

Lemma NoDup_remove token e : NoDup (classList e) -> NoDup (classList (remove token e)).
Proof.
  intros H. unfold remove; simpl.
  apply NoDup_ListNoDup, List.NoDup_filter, NoDup_ListNoDup, H.
Qed.

(** X1. [validateAndCollectData] changes nothing but the token
    [is-invalid] of the inputs it selects: the page keeps its elements in
    place, their texts, every other class, and the canvas; a class list
    without duplicates stays so; an element of neither class is left as it
    is, its own [is-invalid] included. *)
Theorem validate_changes_only_markers (d : Document) :
  let d' := (validateAndCollectData d).2 in
  length (elements d') = length (elements d)
  /\ budgetChart d' = budgetChart d
  /\ forall i e, elements d !! i = Some e ->
       exists e', elements d' !! i = Some e'
         /\ value e' = value e
         /\ (forall t, t <> js "is-invalid" -> contains t e' = contains t e)
         /\ (NoDup (classList e) -> NoDup (classList e'))
         /\ (isField e = false -> e' = e).
Proof.
  rewrite validateAndCollectData_spec; simpl.
  split; [apply length_map|]. split; [reflexivity|].
  intros i e He. exists (processed e). rewrite list_lookup_fmap, He.
  split; [reflexivity|]. split; [apply value_processed|].
  split; [intros t Ht; now apply contains_processed|]. split.
  - unfold processed, marked. destruct (isField e); [|auto].
    destruct (rejected (text e)); [apply NoDup_add | apply NoDup_remove].
  - intros Hf. unfold processed. now rewrite Hf.
Qed.

(** X3. Whatever the texts, no value of [incomeData] or [expenseData] is
    NaN and none is below zero. *)
Theorem collected_values_are_numbers (d : Document) :
  let r := (validateAndCollectData d).1 in
  Forall (fun x => number_isNaN x = false /\ lessThan x zero = false)
    (incomeData r ++ expenseData r).
Proof.
  rewrite validateAndCollectData_spec; simpl.
  unfold incomeTexts, expenseTexts.
  apply Forall_app; split; apply Forall_forall; intros x Hx;
    apply list_elem_of_fmap in Hx as (t & -> & Ht);
    apply list_elem_of_fmap in Ht as (e & -> & _);
    apply collected_is_number.
Qed.

(** X4. An input whose trimmed text is a binary, octal or hexadecimal
    literal ([0b], [0o], [0x], either case) is accepted: [isNaN] reads the
    value of its digits, yet 0 is stored at its place, and the input carries
    no [is-invalid] afterwards. *)
Theorem nondecimal_literal_collected_as_zero (d : Document) (i : nat) (e : Element) (n : Z) :
  elements d !! i = Some e -> isField e = true ->
  scanNonDecimal (text e) = Some n ->
  let r := (validateAndCollectData d).1 in
  let d' := (validateAndCollectData d).2 in
  StringToNumber (text e) = ofZ n
  /\ 0 <= n
  /\ (contains (js "income-input") e = true ->
        incomeData r !! rank (js "income-input") (elements d) i = Some zero)
  /\ (contains (js "expense-input") e = true ->
        expenseData r !! rank (js "expense-input") (elements d) i = Some zero)
  /\ (exists e', elements d' !! i = Some e'
        /\ contains (js "is-invalid") e' = false).
Proof.
  intros He Hf Hn.
  destruct (nondecimal_text _ _ Hn) as (_ & Hnum & _ & Hrej & Hcol).
  destruct (scanNonDecimal_Some _ _ Hn) as (Hpos & _).
  destruct (validateAndCollectData_field d i e He Hf) as (Hi & Hx & Hm).
  fold (text e) in Hrej, Hcol. rewrite Hcol in Hi, Hx.
  split; [exact Hnum|]. split; [exact Hpos|]. split; [exact Hi|]. split; [exact Hx|].
  exists (marked e). split; [exact Hm|]. now rewrite contains_invalid_marked.
Qed.

Section Handlers.

Variable toLocaleString : number -> jsstring.
Variable toBase64Image : Chart -> jsstring.

Lemma renderChart_document w :
  document (renderChart toLocaleString w).1 = (validateAndCollectData (document w)).2
  /\ downloads (renderChart toLocaleString w).1 = downloads w.
Proof.
  destruct (renderChart_cases w) as [Hv|[[Hv Hc]|[Hv [ctx Hc]]]].
  - now rewrite (renderChart_rejects _ _ Hv).
  - now rewrite (renderChart_throws _ _ Hv Hc).
  - now rewrite (renderChart_builds _ _ _ Hv Hc).
Qed.

(** X5. The context is fetched before the old chart is destroyed. In a
    state the page can reach, with inputs that pass validation: when the
    page has no element [budgetChart], a render ends in a TypeError that
    leaves the chart objects, [chartInstance] and the two logs as they
    were, and the chart that was live is the one a download click exports
    next; when the element is there and [getContext] returns [null],
    nothing is thrown, every older chart is destroyed and a chart is built
    on [null]. *)
Theorem render_failure_keeps_the_chart (d : Document) (evs : list Event) :
  isValid (validateAndCollectData
             (document (run toLocaleString toBase64Image (initial d) evs))).1 = true ->
  let w := run toLocaleString toBase64Image (initial d) evs in
  let w' := handle toLocaleString toBase64Image w UpdateChartClick in
  (budgetChart (document w) = None ->
     (renderChart toLocaleString w).2 = Thrown
     /\ instances w' = instances w
     /\ chartInstance w' = chartInstance w
     /\ alerts w' = alerts w
     /\ downloads w' = downloads w
     /\ forall i, chartInstance w = Some i ->
          exists c, instances w !! i = Some c
            /\ destroyed c = false
            /\ downloads (handle toLocaleString toBase64Image w' DownloadChartClick)
                 = downloads w ++ [mkDownload (toBase64Image c) (js "budget-chart.png")])
  /\ (budgetChart (document w) = Some nullContext ->
     (renderChart toLocaleString w).2 = Returned
     /\ exists old c, instances w' = old ++ [c]
          /\ length old = length (instances w)
          /\ Forall (fun c' => destroyed c' = true) old
          /\ ctx c = nullContext
          /\ destroyed c = false
          /\ chartInstance w' = Some (length old)).
Proof.
  intros Hv w w'.
  pose proof (singleOwner_reachable toLocaleString toBase64Image d evs) as Hw.
  fold w in Hw, Hv. split.
  - intros Hc. subst w'. cbn [handle].
    rewrite (renderChart_throws _ _ Hv Hc). cbn [fst snd instances chartInstance alerts downloads].
    do 5 (split; [reflexivity|]).
    intros i Hi. pose proof (live_singleOwner w Hw) as Hlive. rewrite Hi in Hlive.
    destruct Hlive as (c & Hl & Hlook). exists c. split; [exact Hlook|]. split.
    + assert (Hin : In c (live w)) by (rewrite Hl; now left).
      unfold live in Hin. apply filter_In in Hin as [_ Hd].
      now apply negb_true_iff in Hd.
    + unfold downloadChart. cbn [chartInstance instances]. rewrite Hi, Hlook.
      reflexivity.
  - intros Hc. subst w'. cbn [handle].
    pose proof (singleOwner_renderChart toLocaleString w Hw) as Hw'.
    rewrite (renderChart_builds _ _ _ Hv Hc) in *.
    cbn [fst snd instances chartInstance] in *. split; [reflexivity|].
    unfold singleOwner in Hw'. cbn [chartInstance instances] in Hw'.
    destruct Hw' as (old & c & Heq & Hlen & Hold & Hlive).
    apply app_inj_tail in Heq as [<- <-].
    eexists _, _. split; [reflexivity|]. split.
    { destruct (chartInstance w); [apply length_alter | reflexivity]. }
    split; [exact Hold|]. now repeat split.
Qed.

(** X6. However [renderChart] ends, it leaves every input in place with
    its text, and an income or expense input carries [is-invalid]
    afterwards exactly when its text fails validation. *)
Theorem renderChart_marks_fields (w : World) :
  let w' := (renderChart toLocaleString w).1 in
  length (elements (document w')) = length (elements (document w))
  /\ forall i e, elements (document w) !! i = Some e -> isField e = true ->
       exists e', elements (document w') !! i = Some e'
         /\ value e' = value e
         /\ (contains (js "is-invalid") e' = true <-> failsValidation (text e)).
Proof.
  destruct (renderChart_document w) as [Hd _]. simpl. rewrite Hd.
  rewrite validateAndCollectData_spec. simpl. split; [apply length_map|].
  intros i e He Hf. exists (marked e). rewrite list_lookup_fmap, He. simpl.
  unfold processed. rewrite Hf. split; [reflexivity|]. split; [apply value_marked|].
  rewrite contains_invalid_marked. apply rejected_true_iff.
Qed.

Lemma handle_chartState w1 w2 ev :
  chartState w1 = chartState w2 ->
  chartState (handle toLocaleString toBase64Image w1 ev)
    = chartState (handle toLocaleString toBase64Image w2 ev).
Proof.
  unfold chartState. intros [= Hd Hc Hi]. destruct ev; simpl.
  - destruct (renderChart_cases w1) as [Hv|[[Hv Hb]|[Hv [ctx Hb]]]].
    + rewrite (renderChart_rejects _ _ Hv). rewrite Hd in Hv.
      rewrite (renderChart_rejects _ _ Hv). simpl. now rewrite Hd, Hc, Hi.
    + rewrite (renderChart_throws _ _ Hv Hb). rewrite Hd in Hv, Hb.
      rewrite (renderChart_throws _ _ Hv Hb). simpl. now rewrite Hd, Hc, Hi.
    + rewrite (renderChart_builds _ _ _ Hv Hb). rewrite Hd in Hv, Hb.
      rewrite (renderChart_builds _ _ _ Hv Hb). simpl. now rewrite Hd, Hc, Hi.
  - destruct (renderChart_cases w1) as [Hv|[[Hv Hb]|[Hv [ctx Hb]]]].
    + rewrite (renderChart_rejects _ _ Hv). rewrite Hd in Hv.
      rewrite (renderChart_rejects _ _ Hv). simpl. now rewrite Hd, Hc, Hi.
    + rewrite (renderChart_throws _ _ Hv Hb). rewrite Hd in Hv, Hb.
      rewrite (renderChart_throws _ _ Hv Hb). simpl. now rewrite Hd, Hc, Hi.
    + rewrite (renderChart_builds _ _ _ Hv Hb). rewrite Hd in Hv, Hb.
      rewrite (renderChart_builds _ _ _ Hv Hb). simpl. now rewrite Hd, Hc, Hi.
  - destruct (downloadChart_state toBase64Image w1) as (-> & -> & ->).
    destruct (downloadChart_state toBase64Image w2) as (-> & -> & ->).
    now rewrite Hd, Hc, Hi.
  - now rewrite Hc, Hi.
Qed.

(** X9. Download clicks never touch the page or the charts: after any
    events, the document, [chartInstance] and the chart objects are what
    they are after the same events without the download clicks. *)
Theorem downloads_leave_charts_alone (w : World) (evs : list Event) :
  chartState (run toLocaleString toBase64Image w evs)
    = chartState (run toLocaleString toBase64Image w
                    (List.filter (fun ev => negb (isDownloadChartClick ev)) evs)).
Proof.
  assert (H : forall w1 w2, chartState w1 = chartState w2 ->
            chartState (run toLocaleString toBase64Image w1 evs)
              = chartState (run toLocaleString toBase64Image w2
                              (List.filter (fun ev => negb (isDownloadChartClick ev)) evs))).
  { induction evs as [|ev evs IH]; intros w1 w2 Hs; [exact Hs|].
    destruct ev; simpl; try (apply IH; now apply handle_chartState with (ev := UpdateChartClick));
      try (apply IH; now apply handle_chartState with (ev := ChartTabShown)).
    - apply IH. rewrite <- Hs. unfold chartState.
      now destruct (downloadChart_state toBase64Image w1) as (-> & -> & ->).
    - apply IH. now apply (handle_chartState _ _ (PageChanged d)). }
  now apply H.
Qed.

(** What one event adds to the two logs. *)
Lemma handle_logs w ev :
  singleOwner w ->
  exists shown started,
    alerts (handle toLocaleString toBase64Image w ev) = alerts w ++ shown
    /\ downloads (handle toLocaleString toBase64Image w ev) = downloads w ++ started
    /\ Forall (fun m => m = validationMessage \/ m = downloadMessage) shown
    /\ Forall (fun dl => download dl = js "budget-chart.png"
                 /\ exists c, c ∈ instances w /\ destroyed c = false
                      /\ href dl = toBase64Image c) started
    /\ (length shown + length started <= 1)%nat.
Proof.
  intros Hw.
  assert (Hrender : exists shown started,
    alerts (renderChart toLocaleString w).1 = alerts w ++ shown
    /\ downloads (renderChart toLocaleString w).1 = downloads w ++ started
    /\ Forall (fun m => m = validationMessage \/ m = downloadMessage) shown
    /\ Forall (fun dl => download dl = js "budget-chart.png"
                 /\ exists c, c ∈ instances w /\ destroyed c = false
                      /\ href dl = toBase64Image c) started
    /\ (length shown + length started <= 1)%nat).
  { destruct (renderChart_cases w) as [Hv|[[Hv Hc]|[Hv [ctx Hc]]]].
    - rewrite (renderChart_rejects _ _ Hv). exists [validationMessage], [].
      cbn [fst alerts downloads]. rewrite app_nil_r.
      repeat split; auto; try (simpl; lia).
    - rewrite (renderChart_throws _ _ Hv Hc). exists [], [].
      cbn [fst alerts downloads]. rewrite !app_nil_r. repeat split; auto; try (simpl; lia).
    - rewrite (renderChart_builds _ _ _ Hv Hc). exists [], [].
      cbn [fst alerts downloads]. rewrite !app_nil_r. repeat split; auto; try (simpl; lia). }
  destruct ev; cbn [handle]; try exact Hrender.
  - pose proof (live_singleOwner w Hw) as Hlive. unfold downloadChart.
    destruct (chartInstance w) as [i|].
    + destruct Hlive as (c & Hl & Hi). rewrite Hi.
      exists [], [mkDownload (toBase64Image c) (js "budget-chart.png")].
      cbn [fst alerts downloads]. rewrite app_nil_r.
      split; [reflexivity|]. split; [reflexivity|]. split; [constructor|].
      split; [|simpl; lia]. constructor; [|constructor].
      split; [reflexivity|]. exists c. split; [eapply list_elem_of_lookup_2; eassumption|].
      split; [|reflexivity].
      assert (Hin : In c (live w)) by (rewrite Hl; now left).
      unfold live in Hin. apply filter_In in Hin as [_ Hd].
      now apply negb_true_iff in Hd.
    + exists [downloadMessage], []. cbn [fst alerts downloads]. rewrite app_nil_r.
      repeat split; auto; try (simpl; lia).
  - exists [], []. cbn [alerts downloads]. rewrite !app_nil_r. repeat split; auto; try (simpl; lia).
Qed.

(** X10. In every state the page can reach, each message shown is one of
    the two messages of the script, each download is named
    "budget-chart.png" and holds the image of a chart that was live when it
    was exported, and no event added more than one entry to the two logs. *)
Theorem logs_of_reachable_states (d : Document) (evs : list Event) :
  let w := run toLocaleString toBase64Image (initial d) evs in
  Forall (fun m => m = js "Please fix the validation errors before updating the chart."
                   \/ m = js "Please update the chart first before downloading.")
    (alerts w)
  /\ Forall (fun dl => download dl = js "budget-chart.png"
               /\ exists c, destroyed c = false /\ href dl = toBase64Image c)
       (downloads w)
  /\ (length (alerts w) + length (downloads w) <= length evs)%nat.
Proof.
  assert (H : forall w0, singleOwner w0 ->
    let w := run toLocaleString toBase64Image w0 evs in
    exists shown started,
      alerts w = alerts w0 ++ shown /\ downloads w = downloads w0 ++ started
      /\ Forall (fun m => m = validationMessage \/ m = downloadMessage) shown
      /\ Forall (fun dl => download dl = js "budget-chart.png"
                   /\ exists c, destroyed c = false /\ href dl = toBase64Image c) started
      /\ (length shown + length started <= length evs)%nat).
  { induction evs as [|ev evs IH]; intros w0 Hw0.
    - exists [], []. simpl. rewrite !app_nil_r. repeat split; auto; try (simpl; lia).
    - destruct (handle_logs w0 ev Hw0) as (s1 & t1 & Ha1 & Hd1 & Hs1 & Ht1 & Hn1).
      destruct (IH _ (singleOwner_handle toLocaleString toBase64Image w0 ev Hw0))
        as (s2 & t2 & Ha2 & Hd2 & Hs2 & Ht2 & Hn2).
      exists (s1 ++ s2), (t1 ++ t2).
      change (run toLocaleString toBase64Image w0 (ev :: evs))
        with (run toLocaleString toBase64Image
                (handle toLocaleString toBase64Image w0 ev) evs).
      cbv zeta in Ha2, Hd2. rewrite Ha2, Hd2, Ha1, Hd1, <- !app_assoc.
      split; [reflexivity|]. split; [reflexivity|].
      split; [now apply Forall_app|]. split.
      + apply Forall_app. split; [|assumption].
        eapply Forall_impl; [exact Ht1|].
        intros dl (Hname & c & _ & Hlive & Hhref). eauto.
      + rewrite !List.length_app. simpl. lia. }
  destruct (H (initial d) eq_refl) as (shown & started & Ha & Hd & Hs & Ht & Hn).
  simpl in *. rewrite Ha, Hd. simpl. auto.
Qed.

Lemma handle_keeps_charts w ev i c :
  instances w !! i = Some c ->
  exists c', instances (handle toLocaleString toBase64Image w ev) !! i = Some c'
    /\ ctx c' = ctx c /\ config c' = config c
    /\ (destroyed c = true -> destroyed c' = true).
Proof.
  intros Hi.
  assert (Hrender : exists c', instances (renderChart toLocaleString w).1 !! i = Some c'
    /\ ctx c' = ctx c /\ config c' = config c
    /\ (destroyed c = true -> destroyed c' = true)).
  { destruct (renderChart_cases w) as [Hv|[[Hv Hc]|[Hv [cx Hc]]]].
    - rewrite (renderChart_rejects _ _ Hv). eauto.
    - rewrite (renderChart_throws _ _ Hv Hc). eauto.
    - rewrite (renderChart_builds _ _ _ Hv Hc). cbn [fst instances].
      destruct (chartInstance w) as [j|].
      + destruct (decide (j = i)) as [->|Hne].
        * exists (destroy c). split; [|now repeat split].
          apply lookup_app_l_Some. now rewrite list_lookup_alter_eq, Hi.
        * exists c. split; [|now repeat split].
          apply lookup_app_l_Some. now rewrite list_lookup_alter_ne.
      + exists c. split; [|now repeat split]. now apply lookup_app_l_Some. }
  destruct ev; cbn [handle]; try exact Hrender.
  - destruct (downloadChart_state toBase64Image w) as (_ & -> & _). eauto.
  - eauto.
Qed.

(** X8. No event removes a chart object, changes what it was built from
    or revives it: a chart found at some place is found there after any
    further events, with its context and configuration, and destroyed if it
    was. *)
Theorem charts_are_kept (w : World) (evs : list Event) (i : nat) (c : Chart) :
  instances w !! i = Some c ->
  exists c', instances (run toLocaleString toBase64Image w evs) !! i = Some c'
    /\ ctx c' = ctx c /\ config c' = config c
    /\ (destroyed c = true -> destroyed c' = true).
Proof.
  revert w c. induction evs as [|ev evs IH]; intros w c Hi; [eauto|].
  destruct (handle_keeps_charts w ev i c Hi) as (c1 & H1 & Hx1 & Hg1 & Hd1).
  destruct (IH _ _ H1) as (c2 & H2 & Hx2 & Hg2 & Hd2).
  exists c2. split; [exact H2|]. split; [congruence|]. split; [congruence|]. auto.
Qed.

(** X7. Rendering again a page that passed validation, with nothing
    changed in between, destroys the chart just built and builds one equal
    to it (same context, same configuration); the page and the messages
    are as the first render left them. *)
Theorem rerender_builds_the_same_chart (w : World) (cx : Context2D) :
  isValid (validateAndCollectData (document w)).1 = true ->
  budgetChart (document w) = Some cx ->
  let w1 := (renderChart toLocaleString w).1 in
  let w2 := (renderChart toLocaleString w1).1 in
  exists old c,
    instances w1 = old ++ [c]
    /\ instances w2 = old ++ [destroy c; c]
    /\ destroyed c = false
    /\ chartInstance w2 = Some (S (length old))
    /\ document w2 = document w1
    /\ alerts w2 = alerts w.
Proof.
  intros Hv Hc w1 w2.
  destruct (renderChart_keeps_page toLocaleString w cx Hv Hc) as (Hv1 & Hc1 & _).
  fold w1 in Hv1, Hc1. subst w2. rewrite (renderChart_builds _ _ _ Hv1 Hc1).
  subst w1. rewrite (renderChart_builds _ _ _ Hv Hc).
  cbn [fst instances chartInstance document alerts].
  rewrite !validateAndCollectData_again.
  eexists _, _. split; [reflexivity|].
  rewrite alter_destroy_last, <- app_assoc, List.length_app. simpl.
  split; [reflexivity|]. split; [reflexivity|]. split; [f_equal; lia|].
  split; reflexivity.
Qed.

End Handlers.

Lemma nondecimal_literal_collected_as_zero_witness :
  let e := mkElement [js "form-control"; js "income-input"] (js "0XfF") in
  elements literalForm !! 0%nat = Some e
  /\ isField e = true
  /\ scanNonDecimal (text e) = Some 255
  /\ StringToNumber (text e) = ofZ 255
  /\ incomeData (validateAndCollectData literalForm).1 !! 0%nat = Some zero
  /\ isValid (validateAndCollectData literalForm).1 = true.
Proof.
  intros e.
  assert (He : elements literalForm !! 0%nat = Some e) by (vm_compute; reflexivity).
  assert (Hf : isField e = true) by (vm_compute; reflexivity).
  assert (Hn : scanNonDecimal (text e) = Some 255) by (vm_compute; reflexivity).
  split; [exact He|]. split; [exact Hf|]. split; [exact Hn|].
  destruct (nondecimal_literal_collected_as_zero literalForm 0 e 255 He Hf Hn)
    as (Hnum & _ & Hi & _).
  split; [exact Hnum|]. split; [exact (Hi eq_refl)|]. vm_compute; reflexivity.
Defined.

Lemma rerender_builds_the_same_chart_witness :
  let w := initial validForm in
  let w2 := (renderChart toLocaleString_enUS (renderChart toLocaleString_enUS w).1).1 in
  isValid (validateAndCollectData (document w)).1 = true
  /\ budgetChart (document w) = Some (mkContext2D 0)
  /\ exists old c, instances w2 = old ++ [destroy c; c]
       /\ chartInstance w2 = Some (S (length old))
       /\ alerts w2 = [].
Proof.
  intros w w2.
  assert (Hv : isValid (validateAndCollectData (document w)).1 = true)
    by (vm_compute; reflexivity).
  assert (Hc : budgetChart (document w) = Some (mkContext2D 0)) by reflexivity.
  split; [exact Hv|]. split; [exact Hc|].
  destruct (rerender_builds_the_same_chart toLocaleString_enUS w (mkContext2D 0) Hv Hc)
    as (old & c & _ & H2 & _ & Hi & _ & Ha).
  exists old, c. split; [exact H2|]. split; [exact Hi | exact Ha].
Defined.

Lemma charts_are_kept_witness :
  let w := (renderChart toLocaleString_enUS (initial validForm)).1 in
  let r := (validateAndCollectData validForm).1 in
  let c := mkChart (mkContext2D 0)
             (chartConfig toLocaleString_enUS (incomeData r) (expenseData r)) false in
  let evs := [PageChanged mixedForm; UpdateChartClick; PageChanged validForm;
              ChartTabShown; DownloadChartClick] in
  instances w !! 0%nat = Some c
  /\ exists c', instances (run toLocaleString_enUS mockToBase64Image w evs) !! 0%nat = Some c'
       /\ ctx c' = ctx c /\ config c' = config c.
Proof.
  intros w r c evs.
  assert (Hv : isValid (validateAndCollectData (document (initial validForm))).1 = true)
    by (vm_compute; reflexivity).
  assert (Hx : budgetChart (document (initial validForm)) = Some (mkContext2D 0))
    by reflexivity.
  assert (Hc : instances w !! 0%nat = Some c).
  { subst w. rewrite (renderChart_builds toLocaleString_enUS _ _ Hv Hx). reflexivity. }
  split; [exact Hc|].
  destruct (charts_are_kept toLocaleString_enUS mockToBase64Image w evs 0 c Hc)
    as (c' & H' & Hctx & Hcfg & _).
  exists c'. split; [exact H'|]. split; [exact Hctx | exact Hcfg].
Defined.

Lemma render_failure_keeps_the_chart_witness :
  let d := validForm in
  let evs := [UpdateChartClick; PageChanged (mkDocument (elements validForm) None)] in
  let w := run toLocaleString_enUS mockToBase64Image (initial d) evs in
  let w' := handle toLocaleString_enUS mockToBase64Image w UpdateChartClick in
  isValid (validateAndCollectData (document w)).1 = true
  /\ budgetChart (document w) = None
  /\ chartInstance w = Some 0%nat
  /\ (renderChart toLocaleString_enUS w).2 = Thrown
  /\ chartInstance w' = Some 0%nat
  /\ downloads (handle toLocaleString_enUS mockToBase64Image w' DownloadChartClick)
       = [mkDownload (js "data:image/png;base64,mockImageData") (js "budget-chart.png")].
Proof.
  intros d evs w w'.
  assert (Hv : isValid (validateAndCollectData (document w)).1 = true)
    by (vm_compute; reflexivity).
  assert (Hc : budgetChart (document w) = None) by (vm_compute; reflexivity).
  assert (Hi : chartInstance w = Some 0%nat) by (vm_compute; reflexivity).
  split; [exact Hv|]. split; [exact Hc|]. split; [exact Hi|].
  destruct (render_failure_keeps_the_chart toLocaleString_enUS mockToBase64Image d evs Hv)
    as [Hthrow _].
  destruct (Hthrow Hc) as (Ht & _ & Hci & _ & Hd & Hnext).
  split; [exact Ht|]. split; [exact (eq_trans Hci Hi)|].
  destruct (Hnext 0%nat Hi) as (c & _ & _ & Hdl).
  refine (eq_trans Hdl _). vm_compute. reflexivity.
Defined.
